(** * Backend_Saba: the keyword automation of [main.py]

    A shallow embedding of [src/main.py]: the log buffer and its endpoint,
    [safe_getattr], [is_row_empty], the two updaters
    [fetch_keyword_insights] and [fetch_product_data], and the endpoint
    [run_automation].

    The spreadsheet (gspread) and the market-data client (Jungle Scout) are
    external services.  They are a parameter of every definition: a record
    of oracles that answer from the history of calls made so far, and that
    may raise.

    The arithmetic of the product pass is Python's: ints are exact, floats
    are IEEE 754 doubles (the Standard Library's [SpecFloat], 53 bits, round
    to nearest even), and an int too large for a float raises
    [OverflowError]. *)

From Stdlib Require Import ZArith QArith Qfield Lqa Lia List String Ascii Bool.
From Stdlib Require Import DecimalString.
From Stdlib Require Import Sorted Permutation SpecFloat.
Import ListNotations.
Open Scope string_scope.
Open Scope Z_scope.

(** ** Python values *)

(** The numbers that the program reads, from an API response or from the
    sheet: [int] (which includes [bool]: [False] is 0 and [True] is 1) and
    [float].  A float that is read is finite and is represented by the
    rational it denotes; infinities and NaN are not among the values read.
    The floats that the program computes are IEEE doubles, see [float64]
    below. *)
Inductive num : Type :=
| Int (z : Z)
| Float (q : Q).

(** The objects that travel through the program: attribute values of an API
    response, cells read from the sheet and cells written to it.  [Other]
    is any object that is neither a number, a string nor [None]; only its
    truth value is kept. *)
Inductive pyval : Type :=
| Num (n : num)
| Str (s : string)
| PyNone
| Other (truth : bool).

(** The rational a number denotes. *)
Definition val (n : num) : Q :=
  match n with
  | Int z => inject_Z z
  | Float q => q
  end.

(** [a > b], [a >= b], [a < b] on numbers: Python compares an int and a
    float by their exact values. *)
Definition num_gt (a b : num) : bool := negb (Qle_bool (val a) (val b)).
Definition num_ge (a b : num) : bool := Qle_bool (val b) (val a).
Definition num_lt (a b : num) : bool := negb (Qle_bool (val b) (val a)).

(** The truth value of an object, as [if x] and [not x] take it. *)
Definition truthy (v : pyval) : bool :=
  match v with
  | Num n => negb (Qeq_bool (val n) 0)
  | Str s => negb (String.eqb s "")
  | PyNone => false
  | Other t => t
  end.

Definition falsy (v : pyval) : bool := negb (truthy v).

(** [str(i)] for an int. *)
Definition str_int (z : Z) : string := NilZero.string_of_int (Z.to_int z).

(** ** Exceptions *)

(** The instances of [Exception] that occur: those the interpreter raises
    on the operations of this program ([row[0]] on an empty list, [+=] of a
    number and a string, an int too large for a float in [+=] or [/], [/]
    by 0), FastAPI's [HTTPException], which is a subclass of [Exception],
    and whatever an external call raises, kept by its message. *)
Inductive exn : Type :=
| IndexError
| TypeError
| OverflowError
| ZeroDivisionError
| HTTPException (status_code : Z) (detail : string)
| ExternalError (msg : string).

(** ** Float arithmetic *)

(** A Python float: an IEEE 754 double, with 53 bits of precision and
    round to nearest, ties to even. *)
Definition float64 : Type := spec_float.

(** An int as an unrounded binary number, mantissa of any length. *)
Definition exact_int (z : Z) : spec_float :=
  match z with
  | Z0 => S754_zero false
  | Zpos p => S754_finite false p 0
  | Zneg p => S754_finite true p 0
  end.

(** The conversion of an int operand to a float: the nearest double, and
    [OverflowError] when that is beyond the largest double. *)
Definition float_of_int (z : Z) : exn + float64 :=
  match binary_normalize 53 1024 z 0 false with
  | S754_infinity _ => inl OverflowError
  | f => inr f
  end.

(** The double that a float read by the program is: the double of that
    value (the nearest double, for a rational that is not one). *)
Definition float_of_Q (q : Q) : float64 :=
  SFdiv 53 1024 (exact_int (Qnum q)) (exact_int (Zpos (Qden q))).

(** A running total: the int 0 at first, an int while only ints are added,
    a float from the first float on. *)
Inductive total : Type :=
| TInt (z : Z)
| TFloat (f : float64).

(** [total += x] for a number [x]: ints add exactly; an int that meets a
    float is converted first, which may raise; floats add with rounding,
    and beyond the largest double the sum is an infinity. *)
Definition iadd (t : total) (x : num) : exn + total :=
  match t, x with
  | TInt a, Int b => inr (TInt (a + b))
  | TInt a, Float q =>
      match float_of_int a with
      | inl e => inl e
      | inr f => inr (TFloat (SFadd 53 1024 f (float_of_Q q)))
      end
  | TFloat f, Int b =>
      match float_of_int b with
      | inl e => inl e
      | inr g => inr (TFloat (SFadd 53 1024 f g))
      end
  | TFloat f, Float q => inr (TFloat (SFadd 53 1024 f (float_of_Q q)))
  end.

(** [total / count] for an int [count]: [ZeroDivisionError] when the count
    is 0.  For an int total it is the double nearest to the quotient, and
    [OverflowError] when the quotient is beyond the largest double; for a
    float total the count is converted and the floats are divided. *)
Definition true_div (t : total) (count : Z) : exn + float64 :=
  match t with
  | TInt a =>
      if count =? 0 then inl ZeroDivisionError
      else
        match SFdiv 53 1024 (exact_int a) (exact_int count) with
        | S754_infinity _ => inl OverflowError
        | f => inr f
        end
  | TFloat f =>
      match float_of_int count with
      | inl e => inl e
      | inr g =>
          if count =? 0 then inl ZeroDivisionError
          else inr (SFdiv 53 1024 f g)
      end
  end.

(** ** The world outside *)

(** A value handed to [sheet.update]: an object that the program read or a
    constant of the program, or a float that it computed. *)
Inductive cell : Type :=
| Obj (v : pyval)
| Computed (f : float64).

(** An attribute object of an API response: attribute names and values. *)
Definition attrs : Type := list (string * pyval).

(** A row of the sheet, and the sheet as [get_all_values] returns it. *)
Definition row : Type := list pyval.

(** What the program does to the outside, in order. *)
Inductive event : Type :=
| Connect
| GetAllValues
| KeywordsByKeyword (search_terms : pyval)
| ProductDatabase (include_keywords : list pyval)
| Update (range_name : string) (values : list (list cell)).

(** The external services.  Every oracle sees the events so far, so that an
    answer may depend on earlier calls and writes.  [response.data] is the
    list of the attribute objects of its items ([None] as the empty list).
    [str_val] and [str_exn] are Python's [str()] of a value and of an
    exception, as an f-string applies it. *)
Record world : Type := {
  connect_to_google_sheets : list event -> option exn;
  get_all_values : list event -> exn + list row;
  sheet_update : list event -> string -> list (list cell) -> option exn;
  keywords_by_keyword : list event -> pyval -> exn + list attrs;
  product_database : list event -> list pyval -> exn + list attrs;
  str_val : pyval -> string;
  str_exn : exn -> string
}.

(** ** Program state and the monad of statements *)

(** The global [log_buffer], the console [print] writes to, and the events
    on the external services. *)
Record state : Type := {
  log_buffer : list string;
  console : list string;
  trace : list event
}.

(** A statement runs from a state to a state and either returns a value or
    raises. *)
Definition M (A : Type) : Type := state -> (exn + A) * state.

Definition ret {A} (a : A) : M A := fun st => (inr a, st).

Definition raise {A} (e : exn) : M A := fun st => (inl e, st).

Definition bind {A B} (m : M A) (k : A -> M B) : M B :=
  fun st =>
    match m st with
    | (inl e, st') => (inl e, st')
    | (inr a, st') => k a st'
    end.

(** [try: m except Exception as e: h e] *)
Definition try_except {A} (m : M A) (h : exn -> M A) : M A :=
  fun st =>
    match m st with
    | (inl e, st') => h e st'
    | (inr a, st') => (inr a, st')
    end.

Declare Scope py_scope.
Delimit Scope py_scope with py.
Notation "x <- m ;; k" := (bind m (fun x => k))
  (at level 100, m at next level, right associativity) : py_scope.
Notation "m ;; k" := (bind m (fun _ => k))
  (at level 100, right associativity) : py_scope.
Open Scope py_scope.

(** An external call: the event is recorded, then the oracle answers from
    the events before it. *)
Definition call {A} (ev : event) (answer : list event -> exn + A) : M A :=
  fun st =>
    (answer (trace st),
     {| log_buffer := log_buffer st;
        console := console st;
        trace := trace st ++ [ev] |}).

Definition outcome (o : option exn) : exn + unit :=
  match o with
  | Some e => inl e
  | None => inr tt
  end.

Definition lift {A} (r : exn + A) : M A := fun st => (r, st).

(** ** Helpers of [main.py] *)

(** [getattr(obj, attr, default)] *)
Fixpoint getattr (obj : attrs) (attr : string) (default : pyval) : pyval :=
  match obj with
  | [] => default
  | (name, value) :: rest =>
      if String.eqb name attr then value else getattr rest attr default
  end.

(** [isinstance(value, (int, float, str))] *)
Definition is_int_float_str (value : pyval) : bool :=
  match value with
  | Num _ | Str _ => true
  | PyNone | Other _ => false
  end.

Definition safe_getattr (obj : attrs) (attr : string) (default : pyval) : pyval :=
  let value := getattr obj attr default in
  if is_int_float_str value then value else default.

(** The default of [safe_getattr]'s third parameter. *)
Definition zero : pyval := Num (Int 0).

(** [all(not cell for cell in row_data[1:])] *)
Definition is_row_empty (row_data : row) : bool :=
  forallb (fun cell => negb (truthy cell)) (tl row_data).

(** ** The product pass: lines 121 to 159 of [fetch_product_data] *)

(** The local variables of the pass. *)
Record acc : Type := {
  total_sales : total;
  total_revenue : total;
  total_price : total;
  total_reviews : total;
  highest_price : num;
  highest_price_units : num;
  second_highest_price : num;
  second_highest_units : num;
  third_highest_price : num;
  third_highest_units : num;
  sellers_with_low_reviews : Z;
  irrelevant_listings : Z;
  count : Z
}.

Definition acc0 : acc := {|
  total_sales := TInt 0; total_revenue := TInt 0;
  total_price := TInt 0; total_reviews := TInt 0;
  highest_price := Int 0; highest_price_units := Int 0;
  second_highest_price := Int 0; second_highest_units := Int 0;
  third_highest_price := Int 0; third_highest_units := Int 0;
  sellers_with_low_reviews := 0;
  irrelevant_listings := 0;
  count := 0
|}.

(** The operand of [total += x]: the addition raises [TypeError] unless [x]
    is a number.  The totals start as the int 0 and stay numbers. *)
Definition operand (x : pyval) : exn + num :=
  match x with
  | Num n => inr n
  | Str _ | PyNone | Other _ => inl TypeError
  end.

(** The three tiers, as the [if]/[elif]/[elif] under
    [units_sold >= 100] leaves them. *)
Definition tiers : Type := (num * num) * (num * num) * (num * num).

Definition place (price units_sold : num) (t : tiers) : tiers :=
  let '(hi, se, th) := t in
  if num_gt price (fst hi) then ((price, units_sold), hi, se)
  else if num_gt price (fst se) then (hi, (price, units_sold), se)
  else if num_gt price (fst th) then (hi, se, (price, units_sold))
  else (hi, se, th).

Definition tiers_of (a : acc) : tiers :=
  ((highest_price a, highest_price_units a),
   (second_highest_price a, second_highest_units a),
   (third_highest_price a, third_highest_units a)).

(** The rest of the body of [for product in response.data], after the four
    additions: the count, the tiers and the low-review count.  The four
    values are numbers then, and the new totals are at hand. *)
Definition advance (a : acc) (units_sold revenue price reviews : num)
    (sales' revenue' price' reviews' : total) : acc :=
  let '(hi, se, th) :=
    if num_ge units_sold (Int 100)
    then place price units_sold (tiers_of a)
    else tiers_of a in
  {| total_sales := sales';
     total_revenue := revenue';
     total_price := price';
     total_reviews := reviews';
     highest_price := fst hi; highest_price_units := snd hi;
     second_highest_price := fst se; second_highest_units := snd se;
     third_highest_price := fst th; third_highest_units := snd th;
     sellers_with_low_reviews :=
       if num_lt reviews (Int 100)
       then sellers_with_low_reviews a + 1
       else sellers_with_low_reviews a;
     irrelevant_listings := irrelevant_listings a;
     count := count a + 1 |}.

(** One iteration: the four values are fetched, then added to the totals
    one after the other.  An addition raises [TypeError] unless the value is
    a number, and [OverflowError] when an int is too large for the float it
    meets; the first to raise ends the pass. *)
Definition step (a : acc) (attributes : attrs) : exn + acc :=
  let units_sold := safe_getattr attributes "approximate_30_day_units_sold" zero in
  let revenue := safe_getattr attributes "approximate_30_day_revenue" zero in
  let price := safe_getattr attributes "price" zero in
  let reviews := safe_getattr attributes "reviews" zero in
  match operand units_sold with
  | inl e => inl e
  | inr units_sold =>
  match iadd (total_sales a) units_sold with
  | inl e => inl e
  | inr sales' =>
  match operand revenue with
  | inl e => inl e
  | inr revenue =>
  match iadd (total_revenue a) revenue with
  | inl e => inl e
  | inr revenue' =>
  match operand price with
  | inl e => inl e
  | inr price =>
  match iadd (total_price a) price with
  | inl e => inl e
  | inr price' =>
  match operand reviews with
  | inl e => inl e
  | inr reviews =>
  match iadd (total_reviews a) reviews with
  | inl e => inl e
  | inr reviews' =>
      inr (advance a units_sold revenue price reviews
             sales' revenue' price' reviews')
  end end end end end end end end.

Fixpoint loop (a : acc) (data : list attrs) : exn + acc :=
  match data with
  | [] => inr a
  | product :: rest =>
      match step a product with
      | inl e => inl e
      | inr a' => loop a' rest
      end
  end.

(** [total / count if count else 0]: the int 0, or the float quotient. *)
Definition average (t : total) (count : Z) : exn + cell :=
  if count =? 0 then inr (Obj (Num (Int 0)))
  else
    match true_div t count with
    | inl e => inl e
    | inr f => inr (Computed f)
    end.

(** The values of the pass that the sheet receives. *)
Record summary : Type := {
  avg_sales : cell;
  avg_revenue : cell;
  avg_price : cell;
  avg_reviews : cell;
  final : acc
}.

(** Lines 121 to 159: the loop, then the four averages in their order; the
    first division to raise ends the pass. *)
Definition aggregate (data : list attrs) : exn + summary :=
  match loop acc0 data with
  | inl e => inl e
  | inr a =>
  match average (total_sales a) (count a) with
  | inl e => inl e
  | inr avg_sales =>
  match average (total_revenue a) (count a) with
  | inl e => inl e
  | inr avg_revenue =>
  match average (total_price a) (count a) with
  | inl e => inl e
  | inr avg_price =>
  match average (total_reviews a) (count a) with
  | inl e => inl e
  | inr avg_reviews =>
      inr {| avg_sales := avg_sales;
             avg_revenue := avg_revenue;
             avg_price := avg_price;
             avg_reviews := avg_reviews;
             final := a |}
  end end end end end.

(** The row of twelve values written to [F:Q]. *)
Definition summary_row (s : summary) : list cell :=
  let a := final s in
  [ avg_sales s; avg_revenue s; avg_price s; avg_reviews s;
    Obj (Num (highest_price a)); Obj (Num (highest_price_units a));
    Obj (Num (second_highest_price a)); Obj (Num (second_highest_units a));
    Obj (Num (third_highest_price a)); Obj (Num (third_highest_units a));
    Obj (Num (Int (sellers_with_low_reviews a)));
    Obj (Num (Int (irrelevant_listings a))) ].

(** ** The log buffer *)

(** [log_message]: appends to the buffer and prints. *)
Definition log_message (message : string) : M unit :=
  fun st =>
    (inr tt,
     {| log_buffer := log_buffer st ++ [message];
        console := console st ++ [message];
        trace := trace st |}).

(** The body of a [/logs] response. *)
Record logs_response : Type := { logs : list string }.

(** [get_logs]: copies the buffer, rebinds the global to a new empty list
    and returns the copy. *)
Definition get_logs : M logs_response :=
  fun st =>
    let logs_to_return := log_buffer st in
    (inr {| logs := logs_to_return |},
     {| log_buffer := [];
        console := console st;
        trace := trace st |}).

(** ** The updaters and the endpoint *)

(** The body of a successful [/run-automation] response. *)
Record status_response : Type := { status : string }.

Section Program.

Variable w : world.

(** [sheet.update(range_name, values)] *)
Definition update (range_name : string) (values : list (list cell)) : M unit :=
  call (Update range_name values)
       (fun past => outcome (sheet_update w past range_name values)).

(** The row that [fetch_keyword_insights] writes at column B. *)
Definition insight_row (keyword_data : attrs) : list cell :=
  map Obj
    [ safe_getattr keyword_data "monthly_search_volume_exact" zero;
      safe_getattr keyword_data "monthly_search_volume_broad" zero;
      safe_getattr keyword_data "ease_of_ranking_score" zero;
      safe_getattr keyword_data "sponsored_product_count" zero;
      PyNone; PyNone; PyNone; PyNone;  (* Placeholder for product data *)
      PyNone; PyNone; PyNone; PyNone;
      PyNone; PyNone; PyNone; PyNone;
      safe_getattr keyword_data "monthly_trend" zero;
      safe_getattr keyword_data "quarterly_trend" zero;
      safe_getattr keyword_data "recommended_promotions" zero;
      safe_getattr keyword_data "sp_brand_ad_bid" zero;
      safe_getattr keyword_data "ppc_bid_broad" zero;
      safe_getattr keyword_data "ppc_bid_exact" zero;
      safe_getattr keyword_data "estimated_30_day_search_volume" zero ].

(** The [try] block of [fetch_keyword_insights]. *)
Definition keyword_insights_try (keyword : pyval) (row_index : Z) : M unit :=
  data <- call (KeywordsByKeyword keyword)
               (fun past => keywords_by_keyword w past keyword) ;;
  match data with
  | [] =>
      log_message ("No keyword insight data returned for: " ++ str_val w keyword)
  | keyword_data :: _ =>
      update ("B" ++ str_int row_index) [insight_row keyword_data] ;;
      log_message ("Keyword insight data for '" ++ str_val w keyword
                   ++ "' updated in Google Sheet.")
  end.

Definition fetch_keyword_insights (keyword : pyval) (row_index : Z) : M unit :=
  try_except
    (keyword_insights_try keyword row_index)
    (fun e =>
       log_message ("Error fetching keyword insights for " ++ str_val w keyword
                    ++ ": " ++ str_exn w e)).

(** The [try] block of [fetch_product_data]. *)
Definition product_data_try (keyword : pyval) (row_index : Z) : M unit :=
  data <- call (ProductDatabase [keyword])
               (fun past => product_database w past [keyword]) ;;
  match data with
  | [] =>
      log_message ("No product database data returned for keyword: "
                   ++ str_val w keyword)
  | _ :: _ =>
      s <- lift (aggregate data) ;;
      update ("F" ++ str_int row_index ++ ":Q" ++ str_int row_index)
             [summary_row s] ;;
      log_message ("Product data for '" ++ str_val w keyword
                   ++ "' updated in Google Sheet.")
  end.

Definition fetch_product_data (keyword : pyval) (row_index : Z) : M unit :=
  try_except
    (product_data_try keyword row_index)
    (fun e =>
       log_message ("Error fetching product data for " ++ str_val w keyword
                    ++ ": " ++ str_exn w e)).

(** The two [for idx, row in enumerate(data_rows, start=2)] loops.  They
    differ in the test only: [if row[0]] under "all" and
    [if row[0] and is_row_empty(row)] under "new"; [further] is the second
    conjunct.  [row[0]] raises [IndexError] on a row without cells. *)
Fixpoint for_rows (further : row -> bool) (idx : Z) (data_rows : list row) : M unit :=
  match data_rows with
  | [] => ret tt
  | r :: rest =>
      match r with
      | [] => raise IndexError
      | keyword :: _ =>
          (if truthy keyword && further r
           then (fetch_keyword_insights keyword idx ;;
                 fetch_product_data keyword idx)
           else ret tt) ;;
          for_rows further (idx + 1) rest
      end
  end.

Definition run_automation (update_mode : string) : M status_response :=
  try_except
    (_ <- call Connect (fun past => outcome (connect_to_google_sheets w past)) ;;
     rows <- call GetAllValues (get_all_values w) ;;
     let data_rows := tl rows in
     (if String.eqb update_mode "all" then
        log_message "Processing all rows..." ;;
        for_rows (fun _ => true) 2 data_rows
      else if String.eqb update_mode "new" then
        log_message "Processing new rows..." ;;
        for_rows is_row_empty 2 data_rows
      else
        raise (HTTPException 400 "Invalid update mode")) ;;
     ret {| status := "Automation completed successfully" |})
    (fun e =>
       log_message ("Error in automation: " ++ str_exn w e) ;;
       raise (HTTPException 500 "Internal Server Error")).

End Program.

(** ** The rows a run refreshes *)

(** The (row index, keyword) pairs on which a loop of [run_automation] calls
    the two updaters: the rows that pass its test, up to the first row
    without cells, where [row[0]] raises. *)
Fixpoint selected (further : row -> bool) (idx : Z) (data_rows : list row)
  : list (Z * pyval) :=
  match data_rows with
  | [] => []
  | [] :: _ => []
  | ((keyword :: _) as r) :: rest =>
      (if truthy keyword && further r then [(idx, keyword)] else [])
      ++ selected further (idx + 1) rest
  end.

Definition selected_all (data_rows : list row) : list (Z * pyval) :=
  selected (fun _ => true) 2 data_rows.

Definition selected_new (data_rows : list row) : list (Z * pyval) :=
  selected is_row_empty 2 data_rows.

(** Whether some row has no cell. *)
Definition has_empty_row (data_rows : list row) : bool :=
  existsb (fun r => match r with [] => true | _ :: _ => false end) data_rows.

(** The two updaters in sequence on each pair of a list. *)
Fixpoint refresh (w : world) (pairs : list (Z * pyval)) : M unit :=
  match pairs with
  | [] => ret tt
  | (idx, keyword) :: rest =>
      (fetch_keyword_insights w keyword idx ;;
       fetch_product_data w keyword idx) ;;
      refresh w rest
  end.

(** ** Sample worlds *)

(** A rendering of values and exceptions for the sample worlds. *)
Definition show_val (v : pyval) : string :=
  match v with
  | Str s => s
  | Num (Int z) => str_int z
  | Num (Float _) => "<float>"
  | PyNone => "None"
  | Other _ => "<object>"
  end.

Definition show_exn (e : exn) : string :=
  match e with
  | IndexError => "list index out of range"
  | TypeError => "unsupported operand type(s) for +="
  | OverflowError => "int too large to convert to float"
  | ZeroDivisionError => "division by zero"
  | HTTPException c d => str_int c ++ ": " ++ d
  | ExternalError m => m
  end.

(** A world whose services never raise: the sheet holds [rows], and the
    client answers every keyword with the given data. *)
Definition calm_world (rows : list row) (insights products : list attrs) : world := {|
  connect_to_google_sheets := fun _ => None;
  get_all_values := fun _ => inr rows;
  sheet_update := fun _ _ _ => None;
  keywords_by_keyword := fun _ _ => inr insights;
  product_database := fun _ _ => inr products;
  str_val := show_val;
  str_exn := show_exn
|}.

(** A world whose sheet can be read, and where every query and every write
    raises. *)
Definition stormy_world (rows : list row) : world := {|
  connect_to_google_sheets := fun _ => None;
  get_all_values := fun _ => inr rows;
  sheet_update := fun _ _ _ => Some (ExternalError "quota exceeded");
  keywords_by_keyword := fun _ _ => inl (ExternalError "timeout");
  product_database := fun _ _ => inl (ExternalError "timeout");
  str_val := show_val;
  str_exn := show_exn
|}.

Definition state0 : state := {| log_buffer := []; console := []; trace := [] |}.

Definition sample_rows : list row :=
  [ [Str "Keyword"; Str "Exact"; Str "Broad"];
    [Str "yoga mat"; Str ""; Str ""];
    [Str ""; Str "7"; Str ""];
    [Str "kettle"; Str "1200"; Str ""] ].

(** The three listings of the scenario of the specification. *)
Definition scenario : list attrs :=
  [ [("approximate_30_day_units_sold", Num (Int 150)); ("price", Num (Int 20));
     ("reviews", Num (Int 50))];
    [("approximate_30_day_units_sold", Num (Int 200)); ("price", Num (Int 30));
     ("reviews", Num (Int 150))];
    [("approximate_30_day_units_sold", Num (Int 50)); ("price", Num (Int 100));
     ("reviews", Num (Int 5))] ].

(** ** The vocabulary of the properties *)

(** The attribute of an object, when it has one of that name. *)
Fixpoint lookup (obj : attrs) (attr : string) : option pyval :=
  match obj with
  | [] => None
  | (name, value) :: rest =>
      if String.eqb name attr then Some value else lookup rest attr
  end.

(** The value the specification gives a field: the attribute when it is a
    number or a string, and 0 when it is missing or of another type. *)
Definition substituted (obj : attrs) (attr : string) : pyval :=
  match lookup obj attr with
  | Some (Num n) => Num n
  | Some (Str s) => Str s
  | Some PyNone | Some (Other _) | None => Num (Int 0)
  end.

(** The attributes written before and after the blank cells, in order. *)
Definition insight_fields_head : list string :=
  [ "monthly_search_volume_exact"; "monthly_search_volume_broad";
    "ease_of_ranking_score"; "sponsored_product_count" ].

Definition insight_fields_tail : list string :=
  [ "monthly_trend"; "quarterly_trend"; "recommended_promotions";
    "sp_brand_ad_bid"; "ppc_bid_broad"; "ppc_bid_exact";
    "estimated_30_day_search_volume" ].

(** A sample response: some attributes missing, some of other types. *)
Definition partial_insight : attrs :=
  [ ("monthly_search_volume_exact", Num (Int 5400));
    ("ease_of_ranking_score", PyNone);
    ("monthly_trend", Num (Float (7 # 2)));
    ("recommended_promotions", Other true);
    ("sp_brand_ad_bid", Str "n/a") ].

(** The state after [log_message m], and after some external calls. *)
Definition logged (m : string) (st : state) : state :=
  {| log_buffer := log_buffer st ++ [m];
     console := console st ++ [m];
     trace := trace st |}.

Definition traced (evs : list event) (st : state) : state :=
  {| log_buffer := log_buffer st;
     console := console st;
     trace := trace st ++ evs |}.

(** The log lines of the two [except] clauses. *)
Definition insights_error_line (w : world) (keyword : pyval) (e : exn) : string :=
  "Error fetching keyword insights for " ++ str_val w keyword
  ++ ": " ++ str_exn w e.

Definition product_error_line (w : world) (keyword : pyval) (e : exn) : string :=
  "Error fetching product data for " ++ str_val w keyword
  ++ ": " ++ str_exn w e.

(** The calls to the market-data client among the events. *)
Definition is_query (ev : event) : bool :=
  match ev with
  | KeywordsByKeyword _ | ProductDatabase _ => true
  | Connect | GetAllValues | Update _ _ => false
  end.

(** The queries made to the market-data client, in order. *)
Definition queries (st : state) : list event := filter is_query (trace st).

(** The queries of a refresh of the given pairs: for each, the insights
    and then the products of its keyword. *)
Definition queries_for (pairs : list (Z * pyval)) : list event :=
  flat_map (fun p => [KeywordsByKeyword (snd p); ProductDatabase [snd p]]) pairs.

(** The test and the first log line of each mode. *)
Inductive mode_loop : string -> (row -> bool) -> string -> Prop :=
| loop_all : mode_loop "all" (fun _ => true) "Processing all rows..."
| loop_new : mode_loop "new" is_row_empty "Processing new rows...".

(** The two answers of [run_automation] under a valid mode. *)
Definition success : status_response :=
  {| status := "Automation completed successfully" |}.

Definition server_error : exn := HTTPException 500 "Internal Server Error".

(** The four values of a listing as numbers: the attribute when it is a
    number, and 0 when it is missing or of a type [safe_getattr] defaults. *)
Definition number_of (name : string) (p : attrs) : num :=
  match safe_getattr p name zero with
  | Num n => n
  | Str _ | PyNone | Other _ => Int 0
  end.

Definition units_of : attrs -> num := number_of "approximate_30_day_units_sold".
Definition revenue_of : attrs -> num := number_of "approximate_30_day_revenue".
Definition price_of : attrs -> num := number_of "price".
Definition reviews_of : attrs -> num := number_of "reviews".

(** A listing none of whose four values is a string. *)
Definition numeric_listing (p : attrs) : bool :=
  forallb (fun name =>
             match safe_getattr p name zero with
             | Num _ => true
             | Str _ | PyNone | Other _ => false
             end)
          [ "approximate_30_day_units_sold"; "approximate_30_day_revenue";
            "price"; "reviews" ].

Open Scope Q_scope.

(** The pair a tier holds before any listing takes it. *)
Definition sentinel : num * num := (Int 0, Int 0).

(** A listing qualifies when its units sold are at least 100; it can take a
    rank when, besides, its price is above 0, the price of the sentinel. *)
Definition qualifying (p : attrs) : bool := num_ge (units_of p) (Int 100).

Definition ranked (p : attrs) : bool :=
  qualifying p && num_gt (price_of p) (Int 0).

(** How many of the listings seen can take a rank. *)
Definition ranked_count (seen : list attrs) : nat :=
  List.length (filter ranked seen).

(** A tier is the sentinel, or the price and units of a qualifying listing
    that was seen. *)
Definition tier_ok (seen : list attrs) (x : num * num) : Prop :=
  x = sentinel
  \/ (0 < val (fst x)
      /\ exists p, In p seen /\ qualifying p = true
                   /\ x = (price_of p, units_of p)).

(** The invariant of the tiers after the listings [seen]: prices in order
    and not below 0, every tier accounted for, and the ranks that too few
    listings could take still the sentinel. *)
Definition tier_inv (seen : list attrs) (t : tiers) : Prop :=
  let '(hi, se, th) := t in
  0 <= val (fst th)
  /\ val (fst th) <= val (fst se)
  /\ val (fst se) <= val (fst hi)
  /\ tier_ok seen hi /\ tier_ok seen se /\ tier_ok seen th
  /\ (ranked_count seen = 0%nat -> hi = sentinel)
  /\ ((ranked_count seen <= 1)%nat -> se = sentinel)
  /\ ((ranked_count seen <= 2)%nat -> th = sentinel).

(** The sum and the arithmetic mean of a list of rationals. *)
Definition sum (l : list Q) : Q := fold_right Qplus 0 l.

Definition mean (l : list Q) : Q := sum l / inject_Z (Z.of_nat (List.length l)).

(** The running total of one field over a list of listings: the additions
    of the pass for that field alone, from the int 0, in the order of the
    list. *)
Definition field_total (field : attrs -> num) (data : list attrs) : exn + total :=
  fold_left (fun t p => match t with
                        | inl e => inl e
                        | inr t => iadd t (field p)
                        end)
            data (inr (TInt 0)).

(** The quotient [/] of the running total of a field by the number of
    listings. *)
Definition field_quotient (field : attrs -> num) (data : list attrs)
  : exn + float64 :=
  match field_total field data with
  | inl e => inl e
  | inr t => true_div t (Z.of_nat (List.length data))
  end.

(** A field whose values are all ints, and their exact sum. *)
Definition int_field (field : attrs -> num) (data : list attrs) : bool :=
  forallb (fun p => match field p with Int _ => true | Float _ => false end)
          data.

Definition int_sum (field : attrs -> num) (data : list attrs) : Z :=
  fold_right (fun p s => match field p with Int z => z + s | Float _ => s end)%Z
             0%Z data.

(** The invariant of the running totals after the listings [seen]. *)
Definition totals_inv (seen : list attrs) (a : acc) : Prop :=
  field_total units_of seen = inr (total_sales a)
  /\ field_total revenue_of seen = inr (total_revenue a)
  /\ field_total price_of seen = inr (total_price a)
  /\ field_total reviews_of seen = inr (total_reviews a)
  /\ count a = Z.of_nat (List.length seen).

(** The rational a double denotes, when it is finite, and the rational a
    written number denotes. *)
Definition float_value (f : float64) : option Q :=
  match f with
  | S754_zero _ => Some 0
  | S754_finite s m e =>
      Some ((if s then - inject_Z (Zpos m) else inject_Z (Zpos m))
            * Qpower 2 e)
  | S754_infinity _ | S754_nan => None
  end.

Definition cell_value (c : cell) : option Q :=
  match c with
  | Obj (Num n) => Some (val n)
  | Obj (Str _ | PyNone | Other _) => None
  | Computed f => float_value f
  end.

Open Scope Z_scope.

(** ** Further vocabulary *)

(** The two range names, [f'B{row_index}'] and
    [f'F{row_index}:Q{row_index}']. *)
Definition insights_range (row_index : Z) : string :=
  "B" ++ str_int row_index.

Definition products_range (row_index : Z) : string :=
  "F" ++ str_int row_index ++ ":Q" ++ str_int row_index.

(** The log lines of the [try] blocks. *)
Definition insights_empty_line (w : world) (keyword : pyval) : string :=
  "No keyword insight data returned for: " ++ str_val w keyword.

Definition insights_done_line (w : world) (keyword : pyval) : string :=
  "Keyword insight data for '" ++ str_val w keyword
  ++ "' updated in Google Sheet.".

Definition products_empty_line (w : world) (keyword : pyval) : string :=
  "No product database data returned for keyword: " ++ str_val w keyword.

Definition products_done_line (w : world) (keyword : pyval) : string :=
  "Product data for '" ++ str_val w keyword ++ "' updated in Google Sheet.".

Definition automation_error_line (w : world) (e : exn) : string :=
  "Error in automation: " ++ str_exn w e.

(** What the refresh of row [i] with keyword [k] may do to the outside: the
    two queries for [k], one write of a row of 23 cells anchored at column B
    of row [i], one write of a row of 12 cells on columns F to Q of row
    [i]. *)
Definition row_event (i : Z) (k : pyval) (ev : event) : Prop :=
  ev = KeywordsByKeyword k
  \/ ev = ProductDatabase [k]
  \/ (exists cells, ev = Update (insights_range i) [cells]
                    /\ List.length cells = 23%nat)
  \/ (exists cells, ev = Update (products_range i) [cells]
                    /\ List.length cells = 12%nat).

(** A value the sheet can take from a write of this program: a number, a
    string or [None]. *)
Definition plain_cell (c : cell) : bool :=
  match c with
  | Obj (Num _ | Str _ | PyNone) | Computed _ => true
  | Obj (Other _) => false
  end.

(** A listing counted as a low-review seller. *)
Definition low_reviews (p : attrs) : bool := num_lt (reviews_of p) (Int 100).

(** The price and units of a listing, as a tier holds them. *)
Definition pair_of (p : attrs) : num * num := (price_of p, units_of p).

(** Ranking by price, highest first: a pair goes in front of the first pair
    with a lower price, so behind every pair seen earlier with the same or a
    higher price. *)
Fixpoint rank_insert (x : num * num) (ranking : list (num * num))
  : list (num * num) :=
  match ranking with
  | [] => [x]
  | y :: rest =>
      if num_gt (fst x) (fst y) then x :: y :: rest
      else y :: rank_insert x rest
  end.

Definition ranking (pairs : list (num * num)) : list (num * num) :=
  fold_left (fun sorted x => rank_insert x sorted) pairs [].

(** The first three of a ranking, the sentinel standing in for a missing
    one. *)
Definition top_three (sorted : list (num * num)) : tiers :=
  match sorted with
  | [] => (sentinel, sentinel, sentinel)
  | [a] => (a, sentinel, sentinel)
  | [a; b] => (a, b, sentinel)
  | a :: b :: c :: _ => (a, b, c)
  end.

(** Prices from highest to lowest. *)
Definition price_ge (x y : num * num) : Prop := (val (fst y) <= val (fst x))%Q.

(** A pair whose price is above 0. *)
Definition positive_price (x : num * num) : Prop := (0 < val (fst x))%Q.

(** A listing none of whose four values is a float, and local variables
    whose four totals are ints. *)
Definition no_float_listing (p : attrs) : bool :=
  forallb (fun name =>
             match safe_getattr p name zero with
             | Num (Float _) => false
             | Num (Int _) | Str _ | PyNone | Other _ => true
             end)
          [ "approximate_30_day_units_sold"; "approximate_30_day_revenue";
            "price"; "reviews" ].

Definition int_totals (a : acc) : Prop :=
  (exists z, total_sales a = TInt z)
  /\ (exists z, total_revenue a = TInt z)
  /\ (exists z, total_price a = TInt z)
  /\ (exists z, total_reviews a = TInt z).

(** A sample listing whose price is a string. *)
Definition text_listing : attrs :=
  [ ("approximate_30_day_units_sold", Num (Int 300)); ("price", Str "19.99") ].

(** A sheet whose first data row has no cell. *)
Definition broken_rows : list row :=
  [ [Str "Keyword"; Str "Exact"]; []; [Str "kettle"; Str ""] ].

(** A world whose sheet cannot be reached. *)
Definition offline_world : world := {|
  connect_to_google_sheets := fun _ => Some (ExternalError "no route to host");
  get_all_values := fun _ => inr [];
  sheet_update := fun _ _ _ => None;
  keywords_by_keyword := fun _ _ => inr [];
  product_database := fun _ _ => inr [];
  str_val := show_val;
  str_exn := show_exn
|}.

(** * Properties *)

(** ** The log buffer *)

(** C9: a read of [/logs] returns the whole buffer and leaves it empty, so a
    second read with nothing appended in between returns the empty list. *)
Theorem get_logs_twice (st : state) :
  fst (get_logs st) = inr {| logs := log_buffer st |}
  /\ log_buffer (snd (get_logs st)) = []
  /\ fst (get_logs (snd (get_logs st))) = inr {| logs := [] |}
  /\ console (snd (get_logs st)) = console st
  /\ trace (snd (get_logs st)) = trace st.
Proof. repeat split. Qed.

(** Appending and then reading returns what was appended, in order. *)
Lemma get_logs_after_log_message (st : state) (m : string) :
  fst (get_logs (snd (log_message m st)))
  = inr {| logs := log_buffer st ++ [m] |}.
Proof. reflexivity. Qed.

(** ** [safe_getattr] *)

Lemma getattr_lookup (obj : attrs) (attr : string) (default : pyval) :
  getattr obj attr default
  = match lookup obj attr with Some v => v | None => default end.
Proof.
  induction obj as [|[name value] rest IH]; simpl; [reflexivity|].
  destruct (String.eqb name attr); [reflexivity | exact IH].
Qed.

Lemma safe_getattr_substituted (obj : attrs) (attr : string) :
  safe_getattr obj attr zero = substituted obj attr.
Proof.
  unfold safe_getattr, substituted. rewrite getattr_lookup.
  destruct (lookup obj attr) as [[n|s| |t]|]; reflexivity.
Qed.

(** ** The keyword insight updater *)

Lemma insight_row_layout (keyword_data : attrs) :
  insight_row keyword_data
  = map Obj
      (map (substituted keyword_data) insight_fields_head
       ++ repeat PyNone 12
       ++ map (substituted keyword_data) insight_fields_tail)%list.
Proof.
  unfold insight_row, insight_fields_head, insight_fields_tail. simpl.
  now rewrite !safe_getattr_substituted.
Qed.

(** C7, as the code has it: when the response carries data, the updater
    makes one write, anchored at column B of the row, of one row of 23
    cells: the four leading fields, three groups of four blank cells (the
    twelve columns F to Q of the product data), then the seven trailing
    fields; a field is the attribute when that is a number or a string and 0
    when the attribute is missing or of another type. *)
Theorem keyword_insights_layout
    (w : world) (keyword : pyval) (row_index : Z) (st : state)
    (keyword_data : attrs) (others : list attrs) :
  keywords_by_keyword w (trace st) keyword = inr (keyword_data :: others) ->
  exists cells,
    trace (snd (fetch_keyword_insights w keyword row_index st))
    = (trace st ++ [ KeywordsByKeyword keyword;
                     Update ("B" ++ str_int row_index)%string [cells] ])%list
    /\ List.length cells = 23%nat
    /\ cells = map Obj
                 (map (substituted keyword_data) insight_fields_head
                  ++ repeat PyNone 12
                  ++ map (substituted keyword_data) insight_fields_tail)%list.
Proof.
  intros Hdata. exists (insight_row keyword_data).
  split; [|split; [reflexivity | apply insight_row_layout]].
  unfold fetch_keyword_insights, try_except, keyword_insights_try, bind, call,
    update, call.
  cbn [trace]. rewrite Hdata.
  cbn [outcome trace log_buffer console].
  destruct (sheet_update w _ _ _); cbn; now rewrite <- app_assoc.
Qed.

Lemma keyword_insights_layout_witness :
  exists cells,
    trace (snd (fetch_keyword_insights
                  (calm_world sample_rows [partial_insight] [])
                  (Str "yoga mat") 2 state0))
    = [ KeywordsByKeyword (Str "yoga mat"); Update "B2" [cells] ]
    /\ List.length cells = 23%nat
    /\ cells = map Obj
                 (map (substituted partial_insight) insight_fields_head
                  ++ repeat PyNone 12
                  ++ map (substituted partial_insight) insight_fields_tail)%list.
Proof.
  exact (keyword_insights_layout
           (calm_world sample_rows [partial_insight] [])
           (Str "yoga mat") 2 state0 partial_insight [] eq_refl).
Defined.

(** The write is not 21 cells wide: with a response that carries data, no
    row of 21 cells is what the updater writes at column B. *)
Lemma keyword_insights_width_counterexample :
  ~ (exists cells,
       trace (snd (fetch_keyword_insights
                     (calm_world sample_rows [partial_insight] [])
                     (Str "yoga mat") 2 state0))
       = [ KeywordsByKeyword (Str "yoga mat"); Update "B2" [cells] ]
       /\ List.length cells = 21%nat).
Proof.
  intros [cells [Htrace Hlen]].
  vm_compute in Htrace.
  injection Htrace as Hcells. subst cells.
  discriminate Hlen.
Qed.

(** ** The rows a run refreshes *)

(** Membership in [selected]: the pairs are those of the rows that pass the
    test and that no row without cells precedes; row [n] of the data rows
    is row [idx + n] of the sheet. *)
Lemma selected_spec (further : row -> bool) (data_rows : list row) :
  forall (idx i : Z) (k : pyval),
    In (i, k) (selected further idx data_rows)
    <-> exists (n : nat) (cells : list pyval),
          i = idx + Z.of_nat n
          /\ nth_error data_rows n = Some (k :: cells)
          /\ (forall m, (m < n)%nat -> nth_error data_rows m <> Some [])
          /\ truthy k = true
          /\ further (k :: cells) = true.
Proof.
  induction data_rows as [|r rest IH]; intros idx i k.
  - simpl. split; [tauto|]. intros (n & cells & _ & Hn & _).
    destruct n; discriminate Hn.
  - destruct r as [|k0 c0].
    + simpl. split; [tauto|]. intros (n & cells & _ & Hn & Hpre & _).
      destruct n as [|n]; [discriminate Hn|].
      apply (Hpre 0%nat); [lia | reflexivity].
    + cbn [selected]. rewrite in_app_iff, IH. split.
      * intros [Hhere | (n & cells & Hi & Hn & Hpre & Hk & Hf)].
        -- destruct (truthy k0 && further (k0 :: c0)) eqn:Htest;
             [|destruct Hhere].
           destruct Hhere as [Heq|[]]. injection Heq as <- <-.
           apply andb_prop in Htest. destruct Htest as [Hk Hf].
           exists 0%nat, c0. repeat split; try assumption; try lia.
        -- exists (S n), cells. repeat split; try assumption; try lia.
           intros [|m] Hm; [discriminate|]. apply Hpre. lia.
      * intros (n & cells & Hi & Hn & Hpre & Hk & Hf).
        destruct n as [|n].
        -- left. injection Hn as <- <-. rewrite Hk, Hf. simpl.
           left. f_equal. lia.
        -- right. exists n, cells. repeat split; try assumption; try lia.
           intros m Hm. apply (Hpre (S m)). lia.
Qed.

(** The loop of [run_automation] calls the two updaters on the selected
    pairs, in order, and then raises [IndexError] when a row has no cell. *)
Lemma for_rows_selected (w : world) (further : row -> bool) (data_rows : list row) :
  forall (idx : Z) (st : state),
    for_rows w further idx data_rows st
    = (refresh w (selected further idx data_rows) ;;
       if has_empty_row data_rows then raise IndexError else ret tt) st.
Proof.
  induction data_rows as [|r rest IH]; intros idx st.
  - reflexivity.
  - destruct r as [|k0 c0]; [reflexivity|].
    cbn [for_rows selected has_empty_row existsb orb].
    destruct (truthy k0 && further (k0 :: c0)).
    + cbn [app refresh]. unfold bind at 1 3 4.
      destruct ((fetch_keyword_insights w k0 idx ;;
                 fetch_product_data w k0 idx) st) as [[e|[]] st1];
        [reflexivity|].
      rewrite IH. reflexivity.
    + cbn [app]. unfold bind at 1, ret at 1. rewrite IH. reflexivity.
Qed.

(** C5: on one snapshot, every (row index, keyword) pair selected under
    "new" is selected under "all", and a row whose keyword cell is empty
    gives no pair under either mode. *)
Theorem selected_new_within_all (data_rows : list row) :
  incl (selected_new data_rows) (selected_all data_rows)
  /\ (forall (n : nat) (keyword : pyval) (cells : list pyval),
        nth_error data_rows n = Some (keyword :: cells) ->
        truthy keyword = false ->
        forall k,
          ~ In (2 + Z.of_nat n, k) (selected_all data_rows)
          /\ ~ In (2 + Z.of_nat n, k) (selected_new data_rows)).
Proof.
  split.
  - intros [i k] Hin. unfold selected_new, selected_all in *.
    apply selected_spec in Hin. apply selected_spec.
    destruct Hin as (n & cells & Hi & Hn & Hpre & Hk & _).
    exists n, cells. repeat split; assumption.
  - intros n keyword cells Hrow Hempty k.
    assert (Hno : forall further,
               ~ In (2 + Z.of_nat n, k) (selected further 2 data_rows)).
    { intros further Hin. apply selected_spec in Hin.
      destruct Hin as (n' & cells' & Hi & Hn & _ & Hk & _).
      assert (n' = n) by lia. subst n'.
      rewrite Hrow in Hn. injection Hn as -> _. congruence. }
    split; apply Hno.
Qed.

Lemma selected_new_within_all_witness :
  incl (selected_new (tl sample_rows)) (selected_all (tl sample_rows))
  /\ ~ In (3, Str "") (selected_all (tl sample_rows))
  /\ ~ In (3, Str "") (selected_new (tl sample_rows)).
Proof.
  destruct (selected_new_within_all (tl sample_rows)) as [Hincl Hempty].
  split; [exact Hincl|].
  exact (Hempty 1%nat (Str "") [Str "7"; Str ""] eq_refl eq_refl (Str "")).
Defined.

(** What [not cell] accepts: the empty string, a zero, [None], and any
    other object whose truth value is false. *)
Lemma falsy_cases (c : pyval) :
  falsy c = true
  <-> c = Str "" \/ (exists x, c = Num x /\ val x == 0) \/ c = PyNone
      \/ c = Other false.
Proof.
  unfold falsy. destruct c as [x|s| |t]; simpl.
  - rewrite negb_involutive. split.
    + intros H. right. left. exists x. split; [reflexivity|].
      now apply Qeq_bool_iff.
    + intros [H|[(y & Hy & Hz)|[H|H]]]; try discriminate.
      injection Hy as <-. now apply Qeq_bool_iff.
  - rewrite negb_involutive. split.
    + intros H. left. f_equal. now apply String.eqb_eq.
    + intros [H|[(y & Hy & _)|[H|H]]]; try discriminate.
      injection H as ->. reflexivity.
  - split; [intros _; right; right; left; reflexivity | reflexivity].
  - destruct t; simpl; split; try discriminate.
    + intros [H|[(y & Hy & _)|[H|H]]]; discriminate.
    + intros _. right. right. right. reflexivity.
    + reflexivity.
Qed.

Lemma is_row_empty_Forall (keyword : pyval) (cells : list pyval) :
  is_row_empty (keyword :: cells) = true
  <-> Forall (fun c => falsy c = true) cells.
Proof.
  unfold is_row_empty, falsy. simpl. rewrite forallb_forall, Forall_forall.
  reflexivity.
Qed.

(** ** The updaters never raise *)

Section Updaters.

Variable w : world.
Variables (keyword : pyval) (row_index : Z).



Lemma fetch_keyword_insights_returns (st : state) :
  fst (fetch_keyword_insights w keyword row_index st) = inr tt.
Proof.
  unfold fetch_keyword_insights, try_except.
  destruct (keyword_insights_try w keyword row_index st) as [[e|[]] st1];
    reflexivity.
Qed.

Lemma fetch_product_data_returns (st : state) :
  fst (fetch_product_data w keyword row_index st) = inr tt.
Proof.
  unfold fetch_product_data, try_except.
  destruct (product_data_try w keyword row_index st) as [[e|[]] st1];
    reflexivity.
Qed.

(** Where the [try] blocks raise. *)
Lemma keyword_insights_try_query_raises (st : state) (e : exn) :
  keywords_by_keyword w (trace st) keyword = inl e ->
  keyword_insights_try w keyword row_index st
  = (inl e, traced [KeywordsByKeyword keyword] st).
Proof.
  intros H. unfold keyword_insights_try, bind, call. now rewrite H.
Qed.

Lemma keyword_insights_try_write_raises
    (st : state) (keyword_data : attrs) (others : list attrs) (e : exn) :
  keywords_by_keyword w (trace st) keyword = inr (keyword_data :: others) ->
  sheet_update w (trace st ++ [KeywordsByKeyword keyword])
    ("B" ++ str_int row_index) [insight_row keyword_data] = Some e ->
  keyword_insights_try w keyword row_index st
  = (inl e, traced [ KeywordsByKeyword keyword;
                     Update ("B" ++ str_int row_index)
                            [insight_row keyword_data] ] st).
Proof.
  intros Hq Hu. unfold keyword_insights_try, bind, call, update, call.
  rewrite Hq. cbn [trace]. rewrite Hu. cbn [outcome].
  unfold traced. cbn. now rewrite <- app_assoc.
Qed.

Lemma product_data_try_query_raises (st : state) (e : exn) :
  product_database w (trace st) [keyword] = inl e ->
  product_data_try w keyword row_index st
  = (inl e, traced [ProductDatabase [keyword]] st).
Proof.
  intros H. unfold product_data_try, bind, call. now rewrite H.
Qed.

Lemma product_data_try_pass_raises
    (st : state) (data : list attrs) (e : exn) :
  product_database w (trace st) [keyword] = inr data ->
  aggregate data = inl e ->
  product_data_try w keyword row_index st
  = (inl e, traced [ProductDatabase [keyword]] st).
Proof.
  intros Hq Ha. unfold product_data_try, bind, call. rewrite Hq.
  destruct data as [|p rest]; [discriminate Ha|].
  unfold lift. now rewrite Ha.
Qed.

Lemma product_data_try_write_raises
    (st : state) (data : list attrs) (s : summary) (e : exn) :
  product_database w (trace st) [keyword] = inr data ->
  data <> [] ->
  aggregate data = inr s ->
  sheet_update w (trace st ++ [ProductDatabase [keyword]])
    ("F" ++ str_int row_index ++ ":Q" ++ str_int row_index)
    [summary_row s] = Some e ->
  product_data_try w keyword row_index st
  = (inl e, traced [ ProductDatabase [keyword];
                     Update ("F" ++ str_int row_index ++ ":Q"
                             ++ str_int row_index) [summary_row s] ] st).
Proof.
  intros Hq Hne Ha Hu. unfold product_data_try, bind, call. rewrite Hq.
  destruct data as [|p rest]; [congruence|].
  unfold lift, update, call. rewrite Ha. cbn [trace]. rewrite Hu.
  cbn [outcome]. unfold traced. cbn. now rewrite <- app_assoc.
Qed.

End Updaters.

(** ** The queries of a run *)

Lemma queries_fetch_keyword_insights (w : world) (k : pyval) (i : Z) (st : state) :
  queries (snd (fetch_keyword_insights w k i st))
  = (queries st ++ [KeywordsByKeyword k])%list.
Proof.
  unfold queries, fetch_keyword_insights, try_except, keyword_insights_try,
    bind, call, update, call.
  destruct (keywords_by_keyword w (trace st) k) as [e|[|kd others]];
    cbn [snd trace log_message]; try (now rewrite filter_app).
  destruct (outcome _) as [e|[]]; cbn [snd trace log_message];
    rewrite !filter_app; cbn; now rewrite app_nil_r.
Qed.

Lemma queries_fetch_product_data (w : world) (k : pyval) (i : Z) (st : state) :
  queries (snd (fetch_product_data w k i st))
  = (queries st ++ [ProductDatabase [k]])%list.
Proof.
  unfold queries, fetch_product_data, try_except, product_data_try,
    bind, call, update, call, lift.
  destruct (product_database w (trace st) [k]) as [e|[|p others]];
    cbn [snd trace log_message]; try (now rewrite filter_app).
  destruct (aggregate (p :: others)) as [e|s];
    cbn [snd trace log_message]; try (now rewrite filter_app).
  destruct (outcome _) as [e|[]]; cbn [snd trace log_message];
    rewrite !filter_app; cbn; now rewrite app_nil_r.
Qed.

(** [refresh] returns whatever the services do, and queries the client
    twice for each pair. *)
Lemma refresh_returns (w : world) (pairs : list (Z * pyval)) :
  forall st, fst (refresh w pairs st) = inr tt.
Proof.
  induction pairs as [|[i k] rest IH]; intros st; [reflexivity|].
  cbn [refresh]. unfold bind.
  pose proof (fetch_keyword_insights_returns w k i st) as H1.
  destruct (fetch_keyword_insights w k i st) as [r1 st1]. cbn in H1. subst r1.
  pose proof (fetch_product_data_returns w k i st1) as H2.
  destruct (fetch_product_data w k i st1) as [r2 st2]. cbn in H2. subst r2.
  apply IH.
Qed.

Lemma refresh_queries (w : world) (pairs : list (Z * pyval)) :
  forall st,
    queries (snd (refresh w pairs st)) = (queries st ++ queries_for pairs)%list.
Proof.
  induction pairs as [|[i k] rest IH]; intros st.
  - cbn. now rewrite app_nil_r.
  - cbn [refresh]. unfold bind.
    pose proof (fetch_keyword_insights_returns w k i st) as H1.
    pose proof (queries_fetch_keyword_insights w k i st) as Q1.
    destruct (fetch_keyword_insights w k i st) as [r1 st1].
    cbn in H1, Q1. subst r1.
    pose proof (fetch_product_data_returns w k i st1) as H2.
    pose proof (queries_fetch_product_data w k i st1) as Q2.
    destruct (fetch_product_data w k i st1) as [r2 st2].
    cbn in H2, Q2. subst r2.
    rewrite IH, Q2, Q1. cbn. now rewrite <- !app_assoc.
Qed.

(** ** A run under a valid mode *)

(** With the sheet connected and read, a run under "all" or "new" refreshes
    the selected rows; it then succeeds, unless a data row has no cell: the
    [IndexError] of that row reaches the outer handler. *)
Lemma run_automation_valid
    (w : world) (mode : string) (further : row -> bool) (label : string)
    (st : state) (rows : list row) :
  mode_loop mode further label ->
  connect_to_google_sheets w (trace st) = None ->
  get_all_values w (trace st ++ [Connect]) = inr rows ->
  let st1 := snd (refresh w (selected further 2 (tl rows))
                    (logged label (traced [Connect; GetAllValues] st))) in
  run_automation w mode st
  = if has_empty_row (tl rows)
    then (inl server_error,
          logged ("Error in automation: " ++ str_exn w IndexError) st1)
    else (inr success, st1).
Proof.
  intros Hmode Hc Hr st1.
  assert (Hloop :
    for_rows w further 2 (tl rows)
      (logged label (traced [Connect; GetAllValues] st))
    = (if has_empty_row (tl rows) then inl IndexError else inr tt, st1)).
  { rewrite for_rows_selected. unfold bind. subst st1.
    pose proof (refresh_returns w (selected further 2 (tl rows))
                  (logged label (traced [Connect; GetAllValues] st))) as Hret.
    destruct (refresh w _ _) as [r st']. cbn in Hret. subst r. cbn [snd].
    destruct (has_empty_row (tl rows)); reflexivity. }
  assert (Hstart :
    forall (k : list row -> M status_response),
      (_ <- call Connect (fun past => outcome (connect_to_google_sheets w past)) ;;
       rows <- call GetAllValues (get_all_values w) ;; k rows) st
      = k rows (traced [Connect; GetAllValues] st)).
  { intros k. unfold bind, call. rewrite Hc. cbn [outcome trace].
    rewrite Hr. unfold traced. cbn. now rewrite <- app_assoc. }
  unfold run_automation, try_except. rewrite Hstart.
  destruct Hmode; cbn [String.eqb Ascii.eqb Bool.eqb];
    unfold bind at 1; unfold bind at 1; unfold log_message at 1;
    fold (logged "Processing all rows..." (traced [Connect; GetAllValues] st));
    fold (logged "Processing new rows..." (traced [Connect; GetAllValues] st));
    rewrite Hloop; destruct (has_empty_row (tl rows)); reflexivity.
Qed.

(** C10: when the sheet is connected and read and some data row has no
    cell, a run under "all" or under "new" does not succeed and does not
    skip the row: the [IndexError] of [row[0]] reaches the outer handler,
    which logs it and answers with the server error. *)
Theorem empty_row_aborts_run
    (w : world) (mode : string) (st : state) (rows : list row) :
  mode = "all" \/ mode = "new" ->
  connect_to_google_sheets w (trace st) = None ->
  get_all_values w (trace st ++ [Connect]) = inr rows ->
  In [] (tl rows) ->
  fst (run_automation w mode st)
  = inl (HTTPException 500 "Internal Server Error")
  /\ exists earlier,
       log_buffer (snd (run_automation w mode st))
       = (earlier
          ++ [("Error in automation: " ++ str_exn w IndexError)%string])%list.
Proof.
  intros Hmode Hc Hr Hin.
  assert (Hempty : has_empty_row (tl rows) = true).
  { unfold has_empty_row. apply existsb_exists. exists []. now split. }
  assert (Hm : exists further label, mode_loop mode further label).
  { destruct Hmode as [-> | ->]; eexists; eexists; constructor. }
  destruct Hm as (further & label & Hm).
  rewrite (run_automation_valid w mode further label st rows Hm Hc Hr).
  rewrite Hempty. split; [reflexivity|]. cbn [snd logged log_buffer].
  eexists. reflexivity.
Qed.

Lemma empty_row_aborts_run_witness :
  fst (run_automation (calm_world (sample_rows ++ [[]]) [] []) "new" state0)
  = inl (HTTPException 500 "Internal Server Error")
  /\ exists earlier,
       log_buffer (snd (run_automation
                          (calm_world (sample_rows ++ [[]]) [] []) "new" state0))
       = (earlier ++ ["Error in automation: list index out of range"])%list.
Proof.
  apply (empty_row_aborts_run
           (calm_world (sample_rows ++ [[]]) [] []) "new" state0
           (sample_rows ++ [[]])).
  - right. reflexivity.
  - reflexivity.
  - reflexivity.
  - simpl. tauto.
Defined.

(** C1, as the code has it: under a mode that is neither "all" nor "new" a
    run fails with an HTTP error and no updater is called, so no query is
    made and no cell is written; but the sheet is connected to and, when
    that succeeds, read in full before the mode is looked at. *)
Theorem invalid_mode_fails (w : world) (mode : string) (st : state) :
  mode <> "all" ->
  mode <> "new" ->
  (exists code detail,
     fst (run_automation w mode st) = inl (HTTPException code detail))
  /\ (trace (snd (run_automation w mode st)) = (trace st ++ [Connect])%list
      \/ trace (snd (run_automation w mode st))
         = (trace st ++ [Connect; GetAllValues])%list)
  /\ (connect_to_google_sheets w (trace st) = None ->
      trace (snd (run_automation w mode st))
      = (trace st ++ [Connect; GetAllValues])%list).
Proof.
  intros Hall Hnew.
  apply String.eqb_neq in Hall. apply String.eqb_neq in Hnew.
  unfold run_automation, try_except, bind, call.
  destruct (connect_to_google_sheets w (trace st)) as [e|]; cbn.
  - split; [eexists; eexists; reflexivity|].
    split; [left; reflexivity | discriminate].
  - rewrite <- app_assoc. cbn [app].
    destruct (get_all_values w (trace st ++ [Connect])) as [e|rows]; cbn.
    + split; [eexists; eexists; reflexivity|].
      split; [right; reflexivity | reflexivity].
    + rewrite Hall, Hnew. cbn.
      split; [eexists; eexists; reflexivity|].
      split; [right; reflexivity | reflexivity].
Qed.

Lemma invalid_mode_fails_witness :
  (exists code detail,
     fst (run_automation (calm_world sample_rows [] []) "bogus" state0)
     = inl (HTTPException code detail))
  /\ trace (snd (run_automation (calm_world sample_rows [] []) "bogus" state0))
     = [Connect; GetAllValues].
Proof.
  destruct (invalid_mode_fails (calm_world sample_rows [] []) "bogus" state0)
    as (Hfail & _ & Hread).
  - discriminate.
  - discriminate.
  - split; [exact Hfail | exact (Hread eq_refl)].
Defined.

(** With the mode "bogus" the run answers 500, not 400, and has read the
    sheet: the [HTTPException] of the [else] branch is raised inside the
    [try], and [except Exception] catches it. *)
Lemma invalid_mode_counterexample :
  fst (run_automation (calm_world sample_rows [] []) "bogus" state0)
  = inl (HTTPException 500 "Internal Server Error")
  /\ In GetAllValues
        (trace (snd (run_automation (calm_world sample_rows [] []) "bogus" state0)))
  /\ ~ (exists detail,
          fst (run_automation (calm_world sample_rows [] []) "bogus" state0)
          = inl (HTTPException 400 detail)
          /\ ~ In GetAllValues
                 (trace (snd (run_automation
                                (calm_world sample_rows [] []) "bogus" state0)))).
Proof.
  split; [reflexivity|]. split; [right; left; reflexivity|].
  intros (detail & H400 & _). discriminate H400.
Qed.



(** ** The rows refreshed under "new" *)

(** The queries of a run under a valid mode are those of its selected rows,
    whether the run ends or a row without cells stops it. *)
Lemma run_automation_queries
    (w : world) (mode : string) (further : row -> bool) (label : string)
    (st : state) (rows : list row) :
  mode_loop mode further label ->
  connect_to_google_sheets w (trace st) = None ->
  get_all_values w (trace st ++ [Connect]) = inr rows ->
  queries (snd (run_automation w mode st))
  = (queries st ++ queries_for (selected further 2 (tl rows)))%list.
Proof.
  intros Hm Hc Hr.
  rewrite (run_automation_valid w mode further label st rows Hm Hc Hr).
  assert (Hq : queries (snd (refresh w (selected further 2 (tl rows))
                               (logged label (traced [Connect; GetAllValues] st))))
               = (queries st ++ queries_for (selected further 2 (tl rows)))%list).
  { rewrite refresh_queries. f_equal.
    unfold queries, logged, traced. cbn [trace].
    rewrite filter_app. cbn. now rewrite app_nil_r. }
  destruct (has_empty_row (tl rows)); cbn [snd]; exact Hq.
Qed.

(** C6, as the code has it: the loop of "new" calls the two updaters on
    the pairs of [selected_new], in order, and on nothing else; a run under
    "new" makes the queries of these pairs.  A data row that the run
    reaches (no data row before it is without cells) is among them exactly
    when its keyword cell is truthy and every other cell of the row is
    falsy; the empty string, zero and [None] are falsy and every other
    string is truthy, a row that has no other cell is selected, and a row
    with a keyword and some truthy metric cell is skipped. *)
Theorem selected_new_iff
    (data_rows : list row) (n : nat) (keyword : pyval) (cells : list pyval) :
  nth_error data_rows n = Some (keyword :: cells) ->
  (forall m, (m < n)%nat -> nth_error data_rows m <> Some []) ->
  (forall w st,
      for_rows w is_row_empty 2 data_rows st
      = (refresh w (selected_new data_rows) ;;
         if has_empty_row data_rows then raise IndexError else ret tt) st)
  /\ (forall w st header,
        connect_to_google_sheets w (trace st) = None ->
        get_all_values w (trace st ++ [Connect]) = inr (header :: data_rows) ->
        queries (snd (run_automation w "new" st))
        = (queries st ++ queries_for (selected_new data_rows))%list)
  /\ (In (2 + Z.of_nat n, keyword) (selected_new data_rows)
      <-> truthy keyword = true /\ Forall (fun c => falsy c = true) cells)
  /\ (forall c, falsy c = true
                <-> c = Str "" \/ (exists x, c = Num x /\ val x == 0)
                    \/ c = PyNone \/ c = Other false)
  /\ (truthy keyword = true -> cells = [] ->
      In (2 + Z.of_nat n, keyword) (selected_new data_rows))
  /\ (forall c, In c cells -> truthy c = true ->
      ~ In (2 + Z.of_nat n, keyword) (selected_new data_rows)).
Proof.
  intros Hrow Hpre.
  assert (Hiff : In (2 + Z.of_nat n, keyword) (selected_new data_rows)
                 <-> truthy keyword = true
                     /\ Forall (fun c => falsy c = true) cells).
  { unfold selected_new. rewrite selected_spec. split.
    - intros (n' & cells' & Hi & Hn & _ & Hk & Hf).
      assert (n' = n) by lia. subst n'.
      rewrite Hrow in Hn. injection Hn as <-.
      split; [assumption | now apply is_row_empty_Forall with keyword].
    - intros [Hk Hf]. exists n, cells.
      repeat split; try assumption.
      now apply is_row_empty_Forall. }
  split; [|split; [|split; [exact Hiff | split; [exact falsy_cases | split]]]].
  - intros w st. apply for_rows_selected.
  - intros w st header Hc Hr.
    exact (run_automation_queries w "new" is_row_empty
             "Processing new rows..." st (header :: data_rows)
             loop_new Hc Hr).
  - intros Hk ->. apply Hiff. split; [assumption | constructor].
  - intros c Hin Hc Hsel. apply Hiff in Hsel. destruct Hsel as [_ Hall].
    rewrite Forall_forall in Hall. specialize (Hall c Hin).
    unfold falsy in Hall. rewrite Hc in Hall. discriminate.
Qed.

Lemma selected_new_iff_witness :
  In (2, Str "yoga mat") (selected_new (tl sample_rows))
  /\ ~ In (4, Str "kettle") (selected_new (tl sample_rows))
  /\ queries (snd (run_automation (calm_world sample_rows [] []) "new" state0))
     = [ KeywordsByKeyword (Str "yoga mat"); ProductDatabase [Str "yoga mat"] ].
Proof.
  assert (Hpre : forall n, (n <= 2)%nat -> forall m, (m < n)%nat ->
                 nth_error (tl sample_rows) m <> Some []).
  { intros n Hn [|[|m]] Hm; try discriminate. lia. }
  split; [|split].
  - destruct (selected_new_iff (tl sample_rows) 0 (Str "yoga mat")
                [Str ""; Str ""] eq_refl (Hpre 0%nat (Nat.le_0_l 2)))
      as (_ & _ & Hiff & _).
    apply Hiff. split; [reflexivity | repeat constructor].
  - destruct (selected_new_iff (tl sample_rows) 2 (Str "kettle")
                [Str "1200"; Str ""] eq_refl (Hpre 2%nat (Nat.le_refl 2)))
      as (_ & _ & _ & _ & _ & Hskip).
    apply (Hskip (Str "1200")); [left|]; reflexivity.
  - destruct (selected_new_iff (tl sample_rows) 0 (Str "yoga mat")
                [Str ""; Str ""] eq_refl (Hpre 0%nat (Nat.le_0_l 2)))
      as (_ & Hrun & _).
    exact (Hrun (calm_world sample_rows [] []) state0
             [Str "Keyword"; Str "Exact"; Str "Broad"] eq_refl eq_refl).
Defined.

(** A data row with a keyword and an empty metric cell that comes after a
    row without cells is not refreshed under "new": the run makes no query,
    the [IndexError] of the row without cells has ended it. *)
Lemma selected_new_counterexample :
  nth_error (tl broken_rows) 1 = Some [Str "kettle"; Str ""]
  /\ truthy (Str "kettle") = true
  /\ Forall (fun c => falsy c = true) [Str ""]
  /\ queries (snd (run_automation (calm_world broken_rows [] []) "new" state0))
     = []
  /\ ~ (In (3, Str "kettle") (selected_new (tl broken_rows))
        <-> truthy (Str "kettle") = true
            /\ Forall (fun c => falsy c = true) [Str ""]).
Proof.
  split; [reflexivity|]. split; [reflexivity|].
  split; [repeat constructor|]. split; [reflexivity|].
  intros [_ Hsel].
  assert (Hin : In (3, Str "kettle") (selected_new (tl broken_rows))).
  { apply Hsel. split; [reflexivity | repeat constructor]. }
  destruct Hin.
Qed.

(** ** The product pass *)

Lemma float_of_int_error (z : Z) (e : exn) :
  float_of_int z = inl e -> e = OverflowError.
Proof.
  unfold float_of_int.
  destruct (binary_normalize 53 1024 z 0 false); congruence.
Qed.

Lemma iadd_error (t : total) (x : num) (e : exn) :
  iadd t x = inl e -> e = OverflowError.
Proof.
  destruct t as [a|f], x as [b|q]; cbn [iadd]; try discriminate.
  - destruct (float_of_int a) eqn:E; [|discriminate].
    intros H. injection H as <-. now apply float_of_int_error with a.
  - destruct (float_of_int b) eqn:E; [|discriminate].
    intros H. injection H as <-. now apply float_of_int_error with b.
Qed.

Lemma true_div_error (t : total) (n : Z) (e : exn) :
  (n =? 0) = false -> true_div t n = inl e -> e = OverflowError.
Proof.
  intros Hn. destruct t as [a|f]; cbn [true_div]; rewrite Hn.
  - destruct (SFdiv 53 1024 (exact_int a) (exact_int n)); congruence.
  - destruct (float_of_int n) eqn:E; [|discriminate].
    intros H. injection H as <-. now apply float_of_int_error with n.
Qed.

Lemma average_error (t : total) (n : Z) (e : exn) :
  average t n = inl e -> e = OverflowError.
Proof.
  unfold average. destruct (n =? 0) eqn:Hn; [discriminate|].
  destruct (true_div t n) eqn:E; [|discriminate].
  intros H. injection H as <-. now apply true_div_error with t n.
Qed.

(** An iteration that returns has met four numbers, and has added each to
    its total. *)
Lemma step_numeric (a a' : acc) (p : attrs) :
  step a p = inr a' ->
  numeric_listing p = true
  /\ exists ts tr tp tv,
       iadd (total_sales a) (units_of p) = inr ts
       /\ iadd (total_revenue a) (revenue_of p) = inr tr
       /\ iadd (total_price a) (price_of p) = inr tp
       /\ iadd (total_reviews a) (reviews_of p) = inr tv
       /\ a' = advance a (units_of p) (revenue_of p) (price_of p)
                  (reviews_of p) ts tr tp tv.
Proof.
  unfold step, numeric_listing, units_of, revenue_of, price_of, reviews_of,
    number_of, forallb.
  destruct (safe_getattr p "approximate_30_day_units_sold" zero) as [u| | |];
    cbn [operand]; try discriminate.
  destruct (iadd (total_sales a) u) as [e|ts]; [discriminate|].
  destruct (safe_getattr p "approximate_30_day_revenue" zero) as [r| | |];
    cbn [operand]; try discriminate.
  destruct (iadd (total_revenue a) r) as [e|tr]; [discriminate|].
  destruct (safe_getattr p "price" zero) as [pr| | |];
    cbn [operand]; try discriminate.
  destruct (iadd (total_price a) pr) as [e|tp]; [discriminate|].
  destruct (safe_getattr p "reviews" zero) as [rv| | |];
    cbn [operand]; try discriminate.
  destruct (iadd (total_reviews a) rv) as [e|tv]; [discriminate|].
  intros H. injection H as <-. split; [reflexivity|].
  exists ts, tr, tp, tv. repeat split.
Qed.

(** An iteration raises nothing but [TypeError] and [OverflowError], and
    [TypeError] on a listing with a string only. *)
Lemma step_error (a : acc) (p : attrs) (e : exn) :
  step a p = inl e ->
  (e = TypeError /\ numeric_listing p = false) \/ e = OverflowError.
Proof.
  unfold step, numeric_listing, forallb.
  destruct (safe_getattr p "approximate_30_day_units_sold" zero) as [u| | |];
    cbn [operand andb];
    try (intros H; injection H as <-; left; split; reflexivity).
  destruct (iadd (total_sales a) u) as [e1|ts] eqn:E1;
    [intros H; injection H as <-; right; now apply iadd_error in E1|].
  destruct (safe_getattr p "approximate_30_day_revenue" zero) as [r| | |];
    cbn [operand andb];
    try (intros H; injection H as <-; left; split; reflexivity).
  destruct (iadd (total_revenue a) r) as [e2|tr] eqn:E2;
    [intros H; injection H as <-; right; now apply iadd_error in E2|].
  destruct (safe_getattr p "price" zero) as [pr| | |];
    cbn [operand andb];
    try (intros H; injection H as <-; left; split; reflexivity).
  destruct (iadd (total_price a) pr) as [e3|tp] eqn:E3;
    [intros H; injection H as <-; right; now apply iadd_error in E3|].
  destruct (safe_getattr p "reviews" zero) as [rv| | |];
    cbn [operand andb];
    try (intros H; injection H as <-; left; split; reflexivity).
  destruct (iadd (total_reviews a) rv) as [e4|tv] eqn:E4;
    [intros H; injection H as <-; right; now apply iadd_error in E4|].
  discriminate.
Qed.

(** A string among the four values stops the pass: with a [TypeError], or
    with the [OverflowError] of an addition that comes before it. *)
Lemma step_text (a : acc) (p : attrs) :
  numeric_listing p = false ->
  step a p = inl TypeError \/ step a p = inl OverflowError.
Proof.
  intros Hp. destruct (step a p) as [e|a'] eqn:Hs.
  - destruct (step_error a p e Hs) as [[-> _] | ->]; [left | right];
      reflexivity.
  - apply step_numeric in Hs. destruct Hs as [Hnum _]. congruence.
Qed.

(** On numeric listings the loop ends, with the local variables or with an
    [OverflowError]. *)
Lemma loop_numeric (data : list attrs) :
  forallb numeric_listing data = true ->
  forall a, (exists a', loop a data = inr a') \/ loop a data = inl OverflowError.
Proof.
  induction data as [|p rest IH]; intros Hnum a.
  - left. exists a. reflexivity.
  - cbn [forallb] in Hnum. apply andb_prop in Hnum.
    destruct Hnum as [Hp Hrest].
    cbn [loop]. destruct (step a p) as [e|a1] eqn:Hs.
    + right. destruct (step_error a p e Hs) as [[_ Hno] | ->];
        [congruence | reflexivity].
    + apply IH. exact Hrest.
Qed.

Lemma loop_error (data : list attrs) :
  forall a e, loop a data = inl e -> e = TypeError \/ e = OverflowError.
Proof.
  induction data as [|p rest IH]; intros a e Hloop; [discriminate|].
  cbn [loop] in Hloop. destruct (step a p) as [e1|a1] eqn:Hs.
  - injection Hloop as <-.
    destruct (step_error a p e1 Hs) as [[-> _] | ->]; [left | right];
      reflexivity.
  - now apply IH with a1.
Qed.

(** A property of the listings seen so far and of the local variables that
    every iteration keeps holds when the pass ends. *)
Lemma loop_invariant (P : list attrs -> acc -> Prop) :
  (forall seen a p a',
      P seen a -> step a p = inr a' -> P (seen ++ [p])%list a') ->
  forall data seen a a',
    P seen a -> loop a data = inr a' -> P (seen ++ data)%list a'.
Proof.
  intros Hstep. induction data as [|p rest IH]; intros seen a a' HP Hloop.
  - cbn in Hloop. injection Hloop as <-. now rewrite app_nil_r.
  - cbn [loop] in Hloop. destruct (step a p) as [e|a1] eqn:Hs;
      [discriminate|].
    replace (seen ++ p :: rest)%list with ((seen ++ [p]) ++ rest)%list
      by now rewrite <- app_assoc.
    apply (IH _ a1); [|exact Hloop].
    apply (Hstep seen a); assumption.
Qed.

(** What [aggregate] returns, and what it raises. *)
Lemma aggregate_inr (data : list attrs) (s : summary) :
  aggregate data = inr s ->
  loop acc0 data = inr (final s)
  /\ average (total_sales (final s)) (count (final s)) = inr (avg_sales s)
  /\ average (total_revenue (final s)) (count (final s)) = inr (avg_revenue s)
  /\ average (total_price (final s)) (count (final s)) = inr (avg_price s)
  /\ average (total_reviews (final s)) (count (final s)) = inr (avg_reviews s).
Proof.
  unfold aggregate.
  destruct (loop acc0 data) as [e|a]; [discriminate|].
  destruct (average (total_sales a) (count a)) as [e|c1] eqn:E1;
    [discriminate|].
  destruct (average (total_revenue a) (count a)) as [e|c2] eqn:E2;
    [discriminate|].
  destruct (average (total_price a) (count a)) as [e|c3] eqn:E3;
    [discriminate|].
  destruct (average (total_reviews a) (count a)) as [e|c4] eqn:E4;
    [discriminate|].
  intros H. injection H as <-.
  cbn [final avg_sales avg_revenue avg_price avg_reviews].
  repeat split; assumption.
Qed.

Lemma aggregate_error (data : list attrs) (e : exn) :
  aggregate data = inl e -> e = TypeError \/ e = OverflowError.
Proof.
  unfold aggregate.
  destruct (loop acc0 data) as [e0|a] eqn:Hloop.
  { intros H. injection H as <-. now apply loop_error with data acc0. }
  destruct (average (total_sales a) (count a)) as [e1|c1] eqn:E1;
    [intros H; injection H as <-; right; now apply average_error in E1|].
  destruct (average (total_revenue a) (count a)) as [e2|c2] eqn:E2;
    [intros H; injection H as <-; right; now apply average_error in E2|].
  destruct (average (total_price a) (count a)) as [e3|c3] eqn:E3;
    [intros H; injection H as <-; right; now apply average_error in E3|].
  destruct (average (total_reviews a) (count a)) as [e4|c4] eqn:E4;
    [intros H; injection H as <-; right; now apply average_error in E4|].
  discriminate.
Qed.

Lemma loop_inr_numeric (data : list attrs) :
  forall a a', loop a data = inr a' -> forallb numeric_listing data = true.
Proof.
  induction data as [|p rest IH]; intros a a' Hloop; [reflexivity|].
  cbn [loop] in Hloop. destruct (step a p) as [e|a1] eqn:Hs; [discriminate|].
  cbn [forallb]. apply step_numeric in Hs. destruct Hs as [-> _].
  now apply IH with a1 a'.
Qed.

Lemma aggregate_numeric (data : list attrs) :
  forallb numeric_listing data = true ->
  (exists s, aggregate data = inr s) \/ aggregate data = inl OverflowError.
Proof.
  intros Hnum. destruct (aggregate data) as [e|s] eqn:Hagg.
  - right. destruct (aggregate_error data e Hagg) as [-> | ->];
      [|reflexivity].
    exfalso. unfold aggregate in Hagg.
    destruct (loop_numeric data Hnum acc0) as [[a Hloop] | Hloop];
      rewrite Hloop in Hagg.
    + destruct (average (total_sales a) (count a)) as [e1|c1] eqn:E1;
        [apply average_error in E1; congruence|].
      destruct (average (total_revenue a) (count a)) as [e2|c2] eqn:E2;
        [apply average_error in E2; congruence|].
      destruct (average (total_price a) (count a)) as [e3|c3] eqn:E3;
        [apply average_error in E3; congruence|].
      destruct (average (total_reviews a) (count a)) as [e4|c4] eqn:E4;
        [apply average_error in E4; congruence|].
      discriminate.
    + discriminate.
  - left. exists s. reflexivity.
Qed.

(** With a string among the values no summary is made. *)
Lemma aggregate_text (data : list attrs) :
  forallb numeric_listing data = false ->
  aggregate data = inl TypeError \/ aggregate data = inl OverflowError.
Proof.
  intros Hnum. destruct (aggregate data) as [e|s] eqn:Hagg.
  - destruct (aggregate_error data e Hagg) as [-> | ->]; [left | right];
      reflexivity.
  - apply aggregate_inr in Hagg. destruct Hagg as [Hloop _].
    apply loop_inr_numeric in Hloop. congruence.
Qed.

(** *** Comparisons *)

Open Scope Q_scope.

Lemma num_gt_true (a b : num) : num_gt a b = true <-> val b < val a.
Proof.
  unfold num_gt. rewrite negb_true_iff. split.
  - intros H. apply Qnot_le_lt. intros Hle.
    apply Qle_bool_iff in Hle. congruence.
  - intros H. destruct (Qle_bool (val a) (val b)) eqn:E; [|reflexivity].
    apply Qle_bool_iff in E. apply Qlt_not_le in H. contradiction.
Qed.

Lemma num_gt_false (a b : num) : num_gt a b = false <-> val a <= val b.
Proof.
  unfold num_gt. rewrite negb_false_iff. apply Qle_bool_iff.
Qed.

(** *** The tiers *)

Lemma tier_ok_more (seen : list attrs) (p : attrs) (x : num * num) :
  tier_ok seen x -> tier_ok (seen ++ [p]) x.
Proof.
  intros [H | (Hpos & q & Hin & Hq & Hx)]; [left; exact H|].
  right. split; [exact Hpos|]. exists q. rewrite in_app_iff. tauto.
Qed.

Lemma tier_ok_new (seen : list attrs) (p : attrs) :
  qualifying p = true -> 0 < val (price_of p) ->
  tier_ok (seen ++ [p]) (price_of p, units_of p).
Proof.
  intros Hq Hpos. right. split; [exact Hpos|]. exists p.
  rewrite in_app_iff. cbn. tauto.
Qed.

Lemma ranked_count_snoc (seen : list attrs) (p : attrs) :
  ranked_count (seen ++ [p])
  = (ranked_count seen + if ranked p then 1 else 0)%nat.
Proof.
  unfold ranked_count. rewrite filter_app, length_app. cbn.
  destruct (ranked p); reflexivity.
Qed.

Lemma tiers_of_advance (a : acc) (u r p rv : num) (ts tr tp tv : total) :
  tiers_of (advance a u r p rv ts tr tp tv)
  = if num_ge u (Int 100) then place p u (tiers_of a) else tiers_of a.
Proof.
  unfold advance.
  destruct (if num_ge u (Int 100) then place p u (tiers_of a) else tiers_of a)
    as [[[hp hu] [sp su]] [thp thu]].
  reflexivity.
Qed.

Lemma val_sentinel : val (fst sentinel) == 0.
Proof. reflexivity. Qed.

(** One listing keeps the invariant of the tiers. *)
Lemma tier_inv_step (seen : list attrs) (p : attrs) (t : tiers) :
  tier_inv seen t ->
  tier_inv (seen ++ [p])
    (if qualifying p then place (price_of p) (units_of p) t else t).
Proof.
  destruct t as [[hi se] th].
  intros (H0 & H1 & H2 & Khi & Kse & Kth & Chi & Cse & Cth).
  apply (tier_ok_more seen p) in Khi, Kse, Kth.
  pose proof (ranked_count_snoc seen p) as Hcount.
  unfold ranked in Hcount.
  destruct (qualifying p) eqn:Hq; cbn [andb] in Hcount.
  2:{ rewrite Nat.add_0_r in Hcount. unfold tier_inv. rewrite Hcount.
      repeat split; assumption. }
  assert (Hz : val (Int 0) == 0) by reflexivity.
  unfold place.
  destruct (num_gt (price_of p) (fst hi)) eqn:G1.
  { apply num_gt_true in G1.
    assert (Hpos : 0 < val (price_of p)) by lra.
    assert (Hr : num_gt (price_of p) (Int 0) = true)
      by (apply num_gt_true; lra).
    rewrite Hr in Hcount. unfold tier_inv. rewrite Hcount. cbn [fst].
    repeat split; try assumption; try lra.
    - now apply tier_ok_new.
    - intros C. lia.
    - intros C. apply Chi. lia.
    - intros C. apply Cse. lia. }
  apply num_gt_false in G1.
  destruct (num_gt (price_of p) (fst se)) eqn:G2.
  { apply num_gt_true in G2.
    assert (Hpos : 0 < val (price_of p)) by lra.
    assert (Hr : num_gt (price_of p) (Int 0) = true)
      by (apply num_gt_true; lra).
    rewrite Hr in Hcount. unfold tier_inv. rewrite Hcount. cbn [fst].
    repeat split; try assumption; try lra.
    - now apply tier_ok_new.
    - intros C. apply Chi. lia.
    - intros C. exfalso.
      assert (Hhi : hi = sentinel) by (apply Chi; lia).
      rewrite Hhi, val_sentinel in G1. lra.
    - intros C. apply Cse. lia. }
  apply num_gt_false in G2.
  destruct (num_gt (price_of p) (fst th)) eqn:G3.
  { apply num_gt_true in G3.
    assert (Hpos : 0 < val (price_of p)) by lra.
    assert (Hr : num_gt (price_of p) (Int 0) = true)
      by (apply num_gt_true; lra).
    rewrite Hr in Hcount. unfold tier_inv. rewrite Hcount. cbn [fst].
    repeat split; try assumption; try lra.
    - now apply tier_ok_new.
    - intros C. apply Chi. lia.
    - intros C. apply Cse. lia.
    - intros C. exfalso.
      assert (Hse : se = sentinel) by (apply Cse; lia).
      rewrite Hse, val_sentinel in G2. lra. }
  unfold tier_inv. rewrite Hcount.
  repeat split; try assumption.
  - intros C. apply Chi. destruct (num_gt (price_of p) (Int 0)); lia.
  - intros C. apply Cse. destruct (num_gt (price_of p) (Int 0)); lia.
  - intros C. apply Cth. destruct (num_gt (price_of p) (Int 0)); lia.
Qed.

Lemma tier_inv_start : tier_inv [] (tiers_of acc0).
Proof.
  cbn. repeat split; try (left; reflexivity); try reflexivity;
    apply Qle_refl.
Qed.

Lemma loop_tier_inv (data : list attrs) (a : acc) :
  loop acc0 data = inr a -> tier_inv data (tiers_of a).
Proof.
  intros Hloop.
  assert (Hstep : forall seen a0 p a',
             tier_inv seen (tiers_of a0) -> step a0 p = inr a' ->
             tier_inv (seen ++ [p]) (tiers_of a')).
  { intros seen a0 p a' Hinv Hstep.
    apply step_numeric in Hstep.
    destruct Hstep as (_ & xs & xr & xp & xv & Hxs & Hxr & Hxp & Hxv & ->).
    rewrite tiers_of_advance. now apply tier_inv_step. }
  exact (loop_invariant (fun seen a => tier_inv seen (tiers_of a))
           Hstep data [] acc0 a tier_inv_start Hloop).
Qed.

(** C2: when the pass over a list of listings ends, the prices of the three
    tiers do not increase from highest to third, and every tier is either
    the sentinel (0, 0) or the price and units of a listing of the list
    with at least 100 units sold; a tier whose rank fewer listings could
    take (qualifying listings with a price above 0) is the sentinel.  On a
    list of numeric listings the pass ends, unless an int too large for a
    float raises [OverflowError] in an addition or a division. *)
Theorem tiers_after_pass (data : list attrs) :
  (forallb numeric_listing data = true ->
   (exists s, aggregate data = inr s) \/ aggregate data = inl OverflowError)
  /\ (forall s, aggregate data = inr s ->
      let a := final s in
      val (third_highest_price a) <= val (second_highest_price a)
      /\ val (second_highest_price a) <= val (highest_price a)
      /\ tier_ok data (highest_price a, highest_price_units a)
      /\ tier_ok data (second_highest_price a, second_highest_units a)
      /\ tier_ok data (third_highest_price a, third_highest_units a)
      /\ (ranked_count data = 0%nat ->
          (highest_price a, highest_price_units a) = sentinel)
      /\ ((ranked_count data <= 1)%nat ->
          (second_highest_price a, second_highest_units a) = sentinel)
      /\ ((ranked_count data <= 2)%nat ->
          (third_highest_price a, third_highest_units a) = sentinel)).
Proof.
  split.
  - apply aggregate_numeric.
  - intros s Hs a. apply aggregate_inr in Hs. destruct Hs as [Hloop _].
    subst a.
    pose proof (loop_tier_inv data (final s) Hloop) as Hinv.
    unfold tier_inv, tiers_of in Hinv. cbn [fst] in Hinv.
    destruct Hinv as (H0 & H1 & H2 & Khi & Kse & Kth & Chi & Cse & Cth).
    repeat split; assumption.
Qed.

Lemma tiers_after_pass_witness :
  exists s,
    aggregate scenario = inr s
    /\ val (third_highest_price (final s)) <= val (second_highest_price (final s))
    /\ val (second_highest_price (final s)) <= val (highest_price (final s))
    /\ (third_highest_price (final s), third_highest_units (final s)) = sentinel.
Proof.
  destruct (tiers_after_pass scenario) as [_ Hinv].
  eexists. split; [vm_compute; reflexivity|].
  destruct (Hinv _ eq_refl) as (H1 & H2 & _ & _ & _ & _ & _ & Cth).
  split; [exact H1|]. split; [exact H2|].
  apply Cth. vm_compute. apply le_n.
Defined.

(** *** The averages *)

Lemma field_total_snoc (field : attrs -> num) (seen : list attrs) (p : attrs) :
  field_total field (seen ++ [p])
  = match field_total field seen with
    | inl e => inl e
    | inr t => iadd t (field p)
    end.
Proof. unfold field_total. now rewrite fold_left_app. Qed.

Lemma totals_of_advance (a : acc) (u r p rv : num) (ts tr tp tv : total) :
  total_sales (advance a u r p rv ts tr tp tv) = ts
  /\ total_revenue (advance a u r p rv ts tr tp tv) = tr
  /\ total_price (advance a u r p rv ts tr tp tv) = tp
  /\ total_reviews (advance a u r p rv ts tr tp tv) = tv
  /\ count (advance a u r p rv ts tr tp tv) = (count a + 1)%Z.
Proof.
  unfold advance.
  destruct (if num_ge u (Int 100) then place p u (tiers_of a) else tiers_of a)
    as [[hi se] th].
  repeat split.
Qed.

(** The totals of the pass are the running totals of the four fields, and
    [count] is the number of listings. *)
Lemma loop_totals_inv (data : list attrs) (a : acc) :
  loop acc0 data = inr a -> totals_inv data a.
Proof.
  intros Hloop.
  assert (Hstep : forall seen a0 p a',
             totals_inv seen a0 -> step a0 p = inr a' ->
             totals_inv (seen ++ [p]) a').
  { intros seen a0 p a' (Hs & Hr & Hp & Hv & Hc) Hstep.
    apply step_numeric in Hstep.
    destruct Hstep as (_ & xs & xr & xp & xv & Hxs & Hxr & Hxp & Hxv & ->).
    unfold totals_inv.
    destruct (totals_of_advance a0 (units_of p) (revenue_of p) (price_of p)
                (reviews_of p) xs xr xp xv) as (-> & -> & -> & -> & ->).
    rewrite !field_total_snoc, Hs, Hr, Hp, Hv, Hc, length_app.
    cbn [List.length]. repeat split; try assumption. lia. }
  assert (Hstart : totals_inv [] acc0) by (repeat split; reflexivity).
  exact (loop_invariant totals_inv Hstep data [] acc0 a Hstart Hloop).
Qed.

(** Ints add up exactly. *)
Lemma field_total_from (field : attrs -> num) (data : list attrs) :
  forall start,
    int_field field data = true ->
    fold_left (fun t p => match t with
                          | inl e => inl e
                          | inr t => iadd t (field p)
                          end)
              data (inr (TInt start))
    = inr (TInt (start + int_sum field data)).
Proof.
  induction data as [|p rest IH]; intros start Hint.
  - cbn. now rewrite Z.add_0_r.
  - cbn [int_field forallb] in Hint. cbn [fold_left int_sum fold_right].
    destruct (field p) as [z|q]; [|discriminate Hint].
    cbn [iadd andb] in *. fold (int_sum field rest).
    rewrite (IH (start + z)%Z Hint). f_equal. f_equal. lia.
Qed.

Lemma field_total_int (field : attrs -> num) (data : list attrs) :
  int_field field data = true ->
  field_total field data = inr (TInt (int_sum field data)).
Proof.
  intros Hint. unfold field_total. now rewrite (field_total_from field data 0).
Qed.

Lemma average_quotient (field : attrs -> num) (data : list attrs)
    (t : total) (c : cell) :
  data <> [] ->
  field_total field data = inr t ->
  average t (Z.of_nat (List.length data)) = inr c ->
  exists f, field_quotient field data = inr f /\ c = Computed f.
Proof.
  intros Hne Ht Havg. unfold field_quotient. rewrite Ht.
  unfold average in Havg.
  destruct (Z.of_nat (List.length data) =? 0)%Z eqn:E.
  - apply Z.eqb_eq in E. destruct data; [congruence | cbn in E; lia].
  - destruct (true_div t (Z.of_nat (List.length data))) as [e|f];
      [discriminate|].
    injection Havg as <-. exists f. split; reflexivity.
Qed.

(** C3, as the code has it: on the empty list each of the four averages of
    the pass is the int 0 (and [fetch_product_data] answers an empty
    response before the pass, writing nothing).  On a list that is not
    empty, when the pass ends, each average is the float quotient [/] of
    the running total of its field over all the listings, qualifying or
    not, by their number; the running total of a field of ints is their
    exact sum.  The quotient is a double: it is rounded, so it need not be
    the arithmetic mean.  The pass gives no average when a value is a
    string, and none when an int too large for a float raises
    [OverflowError]. *)
Theorem averages_are_quotients (data : list attrs) :
  (exists s,
     aggregate [] = inr s
     /\ avg_sales s = Obj (Num (Int 0)) /\ avg_revenue s = Obj (Num (Int 0))
     /\ avg_price s = Obj (Num (Int 0)) /\ avg_reviews s = Obj (Num (Int 0)))
  /\ (forall w keyword row_index st,
        product_database w (trace st) [keyword] = inr [] ->
        trace (snd (fetch_product_data w keyword row_index st))
        = (trace st ++ [ProductDatabase [keyword]])%list)
  /\ (data <> [] ->
      forall s, aggregate data = inr s ->
      exists fs fr fp fv,
        field_quotient units_of data = inr fs /\ avg_sales s = Computed fs
        /\ field_quotient revenue_of data = inr fr /\ avg_revenue s = Computed fr
        /\ field_quotient price_of data = inr fp /\ avg_price s = Computed fp
        /\ field_quotient reviews_of data = inr fv /\ avg_reviews s = Computed fv)
  /\ (forall field,
        int_field field data = true ->
        field_total field data = inr (TInt (int_sum field data)))
  /\ (forallb numeric_listing data = true ->
      (exists s, aggregate data = inr s) \/ aggregate data = inl OverflowError)
  /\ (forallb numeric_listing data = false ->
      aggregate data = inl TypeError \/ aggregate data = inl OverflowError).
Proof.
  split; [|split; [|split; [|split; [|split]]]].
  - eexists. split; [reflexivity|]. repeat split.
  - intros w keyword row_index st H.
    unfold fetch_product_data, try_except, product_data_try, bind, call.
    now rewrite H.
  - intros Hne s Hs. apply aggregate_inr in Hs.
    destruct Hs as (Hloop & A1 & A2 & A3 & A4).
    destruct (loop_totals_inv data (final s) Hloop) as (Hs & Hr & Hp & Hv & Hc).
    rewrite Hc in A1, A2, A3, A4.
    destruct (average_quotient units_of data _ _ Hne Hs A1) as (fs & Q1 & E1).
    destruct (average_quotient revenue_of data _ _ Hne Hr A2) as (fr & Q2 & E2).
    destruct (average_quotient price_of data _ _ Hne Hp A3) as (fp & Q3 & E3).
    destruct (average_quotient reviews_of data _ _ Hne Hv A4) as (fv & Q4 & E4).
    exists fs, fr, fp, fv. repeat split; assumption.
  - intros field. apply field_total_int.
  - apply aggregate_numeric.
  - apply aggregate_text.
Qed.

Lemma averages_are_quotients_witness :
  exists s,
    aggregate scenario = inr s
    /\ avg_sales s = Computed (S754_finite false 4691249611844267 (-45))
    /\ avg_revenue s = Computed (S754_zero false)
    /\ avg_price s = Computed (S754_finite false 7036874417766400 (-47))
    /\ avg_reviews s = Computed (S754_finite false 4808530852140373 (-46)).
Proof.
  destruct (averages_are_quotients scenario) as (_ & _ & Hquot & _).
  eexists. split; [vm_compute; reflexivity|].
  destruct (Hquot ltac:(discriminate) _ eq_refl)
    as (fs & fr & fp & fv & Q1 & E1 & Q2 & E2 & Q3 & E3 & Q4 & E4).
  vm_compute in Q1, Q2, Q3, Q4.
  injection Q1 as <-. injection Q2 as <-. injection Q3 as <-.
  injection Q4 as <-.
  split; [exact E1|]. split; [exact E2|]. split; [exact E3 | exact E4].
Defined.

(** On the scenario the average of the units sold is the double
    4691249611844267 / 2^45, which [/] gives for 400 / 3 and which Python
    prints as 133.33333333333334; it is not the arithmetic mean 400/3. *)
Lemma averages_counterexample :
  (exists s,
     aggregate scenario = inr s
     /\ cell_value (avg_sales s)
        = Some (4691249611844267 # 35184372088832))
  /\ ~ (forall s,
          aggregate scenario = inr s ->
          exists q,
            cell_value (avg_sales s) = Some q
            /\ q == mean (map (fun p => val (units_of p)) scenario)).
Proof.
  split.
  - eexists. split; vm_compute; reflexivity.
  - intros H. destruct (H _ eq_refl) as (q & Hq & Hmean).
    vm_compute in Hq. injection Hq as <-.
    vm_compute in Hmean. discriminate Hmean.
Qed.

(** ** The product aggregator *)

(** X3: when the product query returns no listing, the aggregator writes
    nothing: it returns having made the one query and appended the one line
    that names the keyword. *)
Lemma fetch_product_data_no_data
    (w : world) (keyword : pyval) (row_index : Z) (st : state) :
  product_database w (trace st) [keyword] = inr [] ->
  fetch_product_data w keyword row_index st
  = (inr tt,
     logged ("No product database data returned for keyword: "
             ++ str_val w keyword)
            (traced [ProductDatabase [keyword]] st)).
Proof.
  intros H. unfold fetch_product_data, try_except, product_data_try, bind, call.
  now rewrite H.
Qed.

(** C4: on the three listings of the scenario the third listing does not
    qualify, and the aggregator makes one write, of the range from column F
    to column Q of the row, of twelve values in this order: the averages of
    sales, revenue, price and reviews, which are the quotients [/] by 3 of
    the sums 400, 0, 150 and 205 over the three listings (the doubles that
    Python prints as 133.33333333333334, 0.0, 50.0 and 68.33333333333333),
    the tiers (30, 200), (20, 150) and (0, 0), the count 2 of listings with
    fewer than 100 reviews, and 0 for the irrelevant listings. *)
Theorem scenario_written
    (w : world) (keyword : pyval) (row_index : Z) (st : state) :
  product_database w (trace st) [keyword] = inr scenario ->
  map qualifying scenario = [true; true; false]
  /\ exists a1 a2 a3 a4 : float64,
       trace (snd (fetch_product_data w keyword row_index st))
       = (trace st
          ++ [ ProductDatabase [keyword];
               Update ("F" ++ str_int row_index ++ ":Q" ++ str_int row_index)%string
                 [[ Computed a1; Computed a2; Computed a3; Computed a4;
                    Obj (Num (Int 30)); Obj (Num (Int 200));
                    Obj (Num (Int 20)); Obj (Num (Int 150));
                    Obj (Num (Int 0)); Obj (Num (Int 0));
                    Obj (Num (Int 2)); Obj (Num (Int 0)) ]] ])%list
       /\ true_div (TInt (150 + 200 + 50)) 3 = inr a1
       /\ true_div (TInt (0 + 0 + 0)) 3 = inr a2
       /\ true_div (TInt (20 + 30 + 100)) 3 = inr a3
       /\ true_div (TInt (50 + 150 + 5)) 3 = inr a4
       /\ a1 = S754_finite false 4691249611844267 (-45)
       /\ a2 = S754_zero false
       /\ a3 = S754_finite false 7036874417766400 (-47)
       /\ a4 = S754_finite false 4808530852140373 (-46).
Proof.
  intros Hdata. split; [reflexivity|].
  exists (S754_finite false 4691249611844267 (-45)), (S754_zero false),
    (S754_finite false 7036874417766400 (-47)),
    (S754_finite false 4808530852140373 (-46)).
  split; [|repeat split; vm_compute; reflexivity].
  unfold fetch_product_data, try_except, product_data_try, bind, call,
    update, call, lift.
  rewrite Hdata. unfold scenario at 1.
  assert (Hagg : aggregate scenario
    = inr {| avg_sales := Computed (S754_finite false 4691249611844267 (-45));
             avg_revenue := Computed (S754_zero false);
             avg_price := Computed (S754_finite false 7036874417766400 (-47));
             avg_reviews := Computed (S754_finite false 4808530852140373 (-46));
             final := {| total_sales := TInt 400; total_revenue := TInt 0;
                         total_price := TInt 150; total_reviews := TInt 205;
                         highest_price := Int 30; highest_price_units := Int 200;
                         second_highest_price := Int 20;
                         second_highest_units := Int 150;
                         third_highest_price := Int 0;
                         third_highest_units := Int 0;
                         sellers_with_low_reviews := 2;
                         irrelevant_listings := 0;
                         count := 3 |} |})
    by (vm_compute; reflexivity).
  fold scenario. rewrite Hagg.
  cbn [summary_row final avg_sales avg_revenue avg_price avg_reviews
       highest_price highest_price_units second_highest_price
       second_highest_units third_highest_price third_highest_units
       sellers_with_low_reviews irrelevant_listings trace].
  destruct (outcome _) as [e|[]]; cbn [snd trace log_message];
    now rewrite <- app_assoc.
Qed.

Lemma scenario_written_witness :
  exists a1 a2 a3 a4 : float64,
    trace (snd (fetch_product_data (calm_world sample_rows [] scenario)
                  (Str "yoga mat") 2 state0))
    = [ ProductDatabase [Str "yoga mat"];
        Update "F2:Q2"
          [[ Computed a1; Computed a2; Computed a3; Computed a4;
             Obj (Num (Int 30)); Obj (Num (Int 200));
             Obj (Num (Int 20)); Obj (Num (Int 150));
             Obj (Num (Int 0)); Obj (Num (Int 0));
             Obj (Num (Int 2)); Obj (Num (Int 0)) ]] ]
    /\ true_div (TInt (150 + 200 + 50)) 3 = inr a1
    /\ true_div (TInt (0 + 0 + 0)) 3 = inr a2
    /\ true_div (TInt (20 + 30 + 100)) 3 = inr a3
    /\ true_div (TInt (50 + 150 + 5)) 3 = inr a4
    /\ a1 = S754_finite false 4691249611844267 (-45)
    /\ a2 = S754_zero false
    /\ a3 = S754_finite false 7036874417766400 (-47)
    /\ a4 = S754_finite false 4808530852140373 (-46).
Proof.
  exact (proj2 (scenario_written (calm_world sample_rows [] scenario)
                  (Str "yoga mat") 2 state0 eq_refl)).
Defined.

(** * Further properties of [main.py] *)

Open Scope Z_scope.

(** ** The updaters, path by path *)

(** The state an updater leaves, by the answers of the services. *)
Lemma fetch_keyword_insights_state
    (w : world) (k : pyval) (i : Z) (st : state) :
  fetch_keyword_insights w k i st
  = (inr tt,
     match keywords_by_keyword w (trace st) k with
     | inl e =>
         logged (insights_error_line w k e) (traced [KeywordsByKeyword k] st)
     | inr [] =>
         logged (insights_empty_line w k) (traced [KeywordsByKeyword k] st)
     | inr (kd :: _) =>
         let st1 := traced [ KeywordsByKeyword k;
                             Update (insights_range i) [insight_row kd] ] st in
         match sheet_update w (trace st ++ [KeywordsByKeyword k])
                 (insights_range i) [insight_row kd] with
         | Some e => logged (insights_error_line w k e) st1
         | None => logged (insights_done_line w k) st1
         end
     end).
Proof.
  unfold fetch_keyword_insights, try_except, keyword_insights_try, bind, call,
    update, call, insights_range.
  destruct (keywords_by_keyword w (trace st) k) as [e|[|kd others]];
    try reflexivity.
  cbn [trace].
  destruct (sheet_update w _ _ _) as [e|]; cbn [outcome];
    unfold log_message, logged, traced; cbn; now rewrite <- app_assoc.
Qed.

Lemma fetch_product_data_state
    (w : world) (k : pyval) (i : Z) (st : state) :
  fetch_product_data w k i st
  = (inr tt,
     let st0 := traced [ProductDatabase [k]] st in
     match product_database w (trace st) [k] with
     | inl e => logged (product_error_line w k e) st0
     | inr [] => logged (products_empty_line w k) st0
     | inr (p :: rest) =>
         match aggregate (p :: rest) with
         | inl e => logged (product_error_line w k e) st0
         | inr s =>
             let st1 := traced [ ProductDatabase [k];
                                 Update (products_range i) [summary_row s] ] st in
             match sheet_update w (trace st ++ [ProductDatabase [k]])
                     (products_range i) [summary_row s] with
             | Some e => logged (product_error_line w k e) st1
             | None => logged (products_done_line w k) st1
             end
         end
     end).
Proof.
  unfold fetch_product_data, try_except, product_data_try, bind, call,
    update, call, lift, products_range.
  destruct (product_database w (trace st) [k]) as [e|[|p rest]];
    try reflexivity.
  destruct (aggregate (p :: rest)) as [e|s]; try reflexivity.
  cbn [trace].
  destruct (sheet_update w _ _ _) as [e|]; cbn [outcome];
    unfold log_message, logged, traced; cbn; now rewrite <- app_assoc.
Qed.

(** X1: when the keyword query returns no data, the insight updater writes
    nothing: it returns having made the one query and appended the one line
    that names the keyword. *)
Theorem fetch_keyword_insights_no_data
    (w : world) (keyword : pyval) (row_index : Z) (st : state) :
  keywords_by_keyword w (trace st) keyword = inr [] ->
  fetch_keyword_insights w keyword row_index st
  = (inr tt,
     {| log_buffer :=
          log_buffer st
          ++ [("No keyword insight data returned for: "
               ++ str_val w keyword)%string];
        console :=
          console st
          ++ [("No keyword insight data returned for: "
               ++ str_val w keyword)%string];
        trace := trace st ++ [KeywordsByKeyword keyword] |}).
Proof.
  intros H. rewrite fetch_keyword_insights_state, H. reflexivity.
Qed.

Lemma fetch_keyword_insights_no_data_witness :
  fetch_keyword_insights (calm_world sample_rows [] []) (Str "kettle") 4 state0
  = (inr tt,
     {| log_buffer := ["No keyword insight data returned for: kettle"];
        console := ["No keyword insight data returned for: kettle"];
        trace := [KeywordsByKeyword (Str "kettle")] |}).
Proof.
  exact (fetch_keyword_insights_no_data
           (calm_world sample_rows [] []) (Str "kettle") 4 state0 eq_refl).
Defined.

(** X2: when the keyword query returns data, only the first item counts:
    the updater makes one write, of the row of the first item, and then
    logs the success line when the write returns, and the error line in
    its place when the write raises. *)
Theorem fetch_keyword_insights_first_item
    (w : world) (keyword : pyval) (row_index : Z) (st : state)
    (keyword_data : attrs) (others : list attrs) :
  keywords_by_keyword w (trace st) keyword = inr (keyword_data :: others) ->
  let written :=
    traced [ KeywordsByKeyword keyword;
             Update (insights_range row_index) [insight_row keyword_data] ] st in
  (sheet_update w (trace st ++ [KeywordsByKeyword keyword])
     (insights_range row_index) [insight_row keyword_data] = None ->
   fetch_keyword_insights w keyword row_index st
   = (inr tt, logged (insights_done_line w keyword) written))
  /\ (forall e,
        sheet_update w (trace st ++ [KeywordsByKeyword keyword])
          (insights_range row_index) [insight_row keyword_data] = Some e ->
        fetch_keyword_insights w keyword row_index st
        = (inr tt, logged (insights_error_line w keyword e) written)).
Proof.
  intros H written. split.
  - intros Hw. rewrite fetch_keyword_insights_state, H. cbv zeta.
    now rewrite Hw.
  - intros e Hw. rewrite fetch_keyword_insights_state, H. cbv zeta.
    now rewrite Hw.
Qed.

Lemma fetch_keyword_insights_first_item_witness :
  fetch_keyword_insights
    (calm_world sample_rows [partial_insight; []] []) (Str "kettle") 4 state0
  = (inr tt,
     logged "Keyword insight data for 'kettle' updated in Google Sheet."
       (traced [ KeywordsByKeyword (Str "kettle");
                 Update "B4" [insight_row partial_insight] ] state0)).
Proof.
  exact (proj1 (fetch_keyword_insights_first_item
                  (calm_world sample_rows [partial_insight; []] [])
                  (Str "kettle") 4 state0 partial_insight [[]] eq_refl)
               eq_refl).
Defined.

Lemma fetch_product_data_no_data_witness :
  fetch_product_data (calm_world sample_rows [] []) (Str "kettle") 4 state0
  = (inr tt,
     logged "No product database data returned for keyword: kettle"
            (traced [ProductDatabase [Str "kettle"]] state0)).
Proof.
  exact (fetch_product_data_no_data
           (calm_world sample_rows [] []) (Str "kettle") 4 state0 eq_refl).
Defined.

(** ** A string among the values of a listing *)

Lemma loop_text (data : list attrs) :
  forallb numeric_listing data = false ->
  forall a, loop a data = inl TypeError \/ loop a data = inl OverflowError.
Proof.
  intros Hnum a. destruct (loop a data) as [e|a'] eqn:Hloop.
  - destruct (loop_error data a e Hloop) as [-> | ->]; [left | right];
      reflexivity.
  - apply loop_inr_numeric in Hloop. congruence.
Qed.

(** While no float is met the totals stay ints, and no addition raises
    [OverflowError]. *)
Lemma step_no_float (a : acc) (p : attrs) :
  int_totals a ->
  no_float_listing p = true ->
  (exists a', step a p = inr a' /\ int_totals a')
  \/ step a p = inl TypeError.
Proof.
  intros ((zs & Hs) & (zr & Hr) & (zp & Hp) & (zv & Hv)).
  unfold no_float_listing, forallb, step. rewrite Hs, Hr, Hp, Hv.
  destruct (safe_getattr p "approximate_30_day_units_sold" zero)
    as [[u|q]| | |]; cbn [operand iadd andb]; try discriminate;
    try (intros _; right; reflexivity).
  destruct (safe_getattr p "approximate_30_day_revenue" zero)
    as [[r|q]| | |]; cbn [operand iadd andb]; try discriminate;
    try (intros _; right; reflexivity).
  destruct (safe_getattr p "price" zero)
    as [[pr|q]| | |]; cbn [operand iadd andb]; try discriminate;
    try (intros _; right; reflexivity).
  destruct (safe_getattr p "reviews" zero)
    as [[rv|q]| | |]; cbn [operand iadd andb]; try discriminate;
    try (intros _; right; reflexivity).
  intros _. left. eexists. split; [reflexivity|].
  unfold int_totals.
  destruct (totals_of_advance a (Int u) (Int r) (Int pr) (Int rv)
              (TInt (zs + u)) (TInt (zr + r)) (TInt (zp + pr)) (TInt (zv + rv)))
    as (-> & -> & -> & -> & _).
  repeat split; eexists; reflexivity.
Qed.

Lemma loop_no_float (data : list attrs) :
  forallb no_float_listing data = true ->
  forall a, int_totals a ->
            (exists a', loop a data = inr a') \/ loop a data = inl TypeError.
Proof.
  induction data as [|p rest IH]; intros Hall a Ha.
  - left. exists a. reflexivity.
  - cbn [forallb] in Hall. apply andb_prop in Hall. destruct Hall as [Hp Hrest].
    cbn [loop].
    destruct (step_no_float a p Ha Hp) as [(a1 & -> & Ha1) | ->].
    + now apply IH.
    + right. reflexivity.
Qed.

Lemma text_field_not_numeric (p : attrs) (name s : string) :
  In name [ "approximate_30_day_units_sold"; "approximate_30_day_revenue";
            "price"; "reviews" ] ->
  lookup p name = Some (Str s) ->
  numeric_listing p = false.
Proof.
  intros Hname Hlook.
  assert (Hget : safe_getattr p name zero = Str s).
  { unfold safe_getattr. rewrite getattr_lookup, Hlook. reflexivity. }
  unfold numeric_listing.
  destruct (forallb _ _) eqn:Hall; [|reflexivity].
  rewrite forallb_forall in Hall. specialize (Hall name Hname).
  rewrite Hget in Hall. discriminate Hall.
Qed.

(** X4: a string in one of the four fields of any listing stops the
    aggregator: [safe_getattr] lets the string through, the pass raises,
    and the aggregator returns having written nothing and logged the error
    line, whatever the other listings are.  The exception is the
    [TypeError] of the addition of the string, or the [OverflowError] of an
    addition before it; it is the [TypeError] when no value of the list is
    a float. *)
Theorem fetch_product_data_text_field
    (w : world) (keyword : pyval) (row_index : Z) (st : state)
    (data : list attrs) (p : attrs) (name s : string) :
  product_database w (trace st) [keyword] = inr data ->
  In p data ->
  In name [ "approximate_30_day_units_sold"; "approximate_30_day_revenue";
            "price"; "reviews" ] ->
  lookup p name = Some (Str s) ->
  (forallb no_float_listing data = true -> aggregate data = inl TypeError)
  /\ exists e,
       (e = TypeError \/ e = OverflowError)
       /\ aggregate data = inl e
       /\ fetch_product_data w keyword row_index st
          = (inr tt,
             logged ("Error fetching product data for " ++ str_val w keyword
                     ++ ": " ++ str_exn w e)
                    (traced [ProductDatabase [keyword]] st)).
Proof.
  intros Hdata Hin Hname Hlook.
  assert (Hnum : forallb numeric_listing data = false).
  { destruct (forallb numeric_listing data) eqn:Hall; [|reflexivity].
    rewrite forallb_forall in Hall. specialize (Hall p Hin).
    rewrite (text_field_not_numeric p name s Hname Hlook) in Hall.
    discriminate Hall. }
  split.
  - intros Hints. unfold aggregate.
    assert (Hstart : int_totals acc0) by (repeat split; eexists; reflexivity).
    destruct (loop_no_float data Hints acc0 Hstart) as [(a & Hloop) | ->];
      [|reflexivity].
    apply loop_inr_numeric in Hloop. congruence.
  - assert (Hagg : exists e, (e = TypeError \/ e = OverflowError)
                             /\ aggregate data = inl e).
    { destruct (aggregate_text data Hnum) as [H | H]; eexists; split;
        try exact H; [left | right]; reflexivity. }
    destruct Hagg as (e & He & Hagg). exists e.
    split; [exact He|]. split; [exact Hagg|].
    rewrite fetch_product_data_state, Hdata. cbv zeta.
    destruct data as [|q rest]; [destruct Hin|].
    now rewrite Hagg.
Qed.

Lemma fetch_product_data_text_field_witness :
  aggregate (scenario ++ [text_listing]) = inl TypeError
  /\ exists e,
       (e = TypeError \/ e = OverflowError)
       /\ aggregate (scenario ++ [text_listing]) = inl e
       /\ fetch_product_data
            (calm_world sample_rows [] (scenario ++ [text_listing]))
            (Str "kettle") 4 state0
          = (inr tt,
             logged ("Error fetching product data for kettle: " ++ show_exn e)
                    (traced [ProductDatabase [Str "kettle"]] state0)).
Proof.
  destruct (fetch_product_data_text_field
              (calm_world sample_rows [] (scenario ++ [text_listing]))
              (Str "kettle") 4 state0 (scenario ++ [text_listing])
              text_listing "price" "19.99" eq_refl)
    as (Hint & Hrun).
  - simpl. tauto.
  - simpl. tauto.
  - reflexivity.
  - split; [exact (Hint eq_refl) | exact Hrun].
Defined.

(** ** The counts of the pass *)

Lemma counts_of_advance (a : acc) (u r p rv : num) (ts tr tp tv : total) :
  sellers_with_low_reviews (advance a u r p rv ts tr tp tv)
  = (if num_lt rv (Int 100)
     then sellers_with_low_reviews a + 1
     else sellers_with_low_reviews a)
  /\ irrelevant_listings (advance a u r p rv ts tr tp tv)
     = irrelevant_listings a.
Proof.
  unfold advance.
  destruct (if num_ge u (Int 100) then place p u (tiers_of a) else tiers_of a)
    as [[hi se] th].
  split; reflexivity.
Qed.

Lemma loop_counts (data : list attrs) (a : acc) :
  loop acc0 data = inr a ->
  sellers_with_low_reviews a = Z.of_nat (List.length (filter low_reviews data))
  /\ irrelevant_listings a = 0
  /\ count a = Z.of_nat (List.length data).
Proof.
  intros Hloop.
  pose (P := fun (seen : list attrs) (a : acc) =>
               sellers_with_low_reviews a
               = Z.of_nat (List.length (filter low_reviews seen))
               /\ irrelevant_listings a = 0
               /\ count a = Z.of_nat (List.length seen)).
  assert (Hstep : forall seen a0 p a',
             P seen a0 -> step a0 p = inr a' -> P (seen ++ [p])%list a').
  { intros seen a0 p a' (Hl & Hi & Hc) Hstep.
    apply step_numeric in Hstep.
    destruct Hstep as (_ & xs & xr & xp & xv & Hxs & Hxr & Hxp & Hxv & ->).
    unfold P.
    destruct (counts_of_advance a0 (units_of p) (revenue_of p) (price_of p)
                (reviews_of p) xs xr xp xv) as (-> & ->).
    destruct (totals_of_advance a0 (units_of p) (revenue_of p) (price_of p)
                (reviews_of p) xs xr xp xv) as (_ & _ & _ & _ & ->).
    rewrite filter_app, !length_app, Hl, Hi, Hc. cbn [filter].
    change (low_reviews p) with (num_lt (reviews_of p) (Int 100)).
    destruct (num_lt (reviews_of p) (Int 100)); cbn [List.length];
      repeat split; lia. }
  assert (Hstart : P [] acc0) by (repeat split).
  exact (loop_invariant P Hstep data [] acc0 a Hstart Hloop).
Qed.

(** X5: when the pass ends, the low-review count is the number of listings
    of the whole list, qualifying or not, with fewer than 100 reviews, the
    count of irrelevant listings is 0 and [count] is the length of the
    list; the two counts are the last two of the twelve values written. *)
Theorem pass_counts (data : list attrs) (s : summary) :
  aggregate data = inr s ->
  sellers_with_low_reviews (final s)
  = Z.of_nat (List.length (filter low_reviews data))
  /\ irrelevant_listings (final s) = 0
  /\ count (final s) = Z.of_nat (List.length data)
  /\ skipn 10 (summary_row s)
     = [ Obj (Num (Int (Z.of_nat (List.length (filter low_reviews data)))));
         Obj (Num (Int 0)) ].
Proof.
  intros Hs. apply aggregate_inr in Hs. destruct Hs as [Hloop _].
  set (a := final s) in *.
  destruct (loop_counts data a Hloop) as (Hl & Hi & Hc).
  repeat split; try assumption.
  unfold summary_row. cbn [skipn]. fold a. now rewrite Hl, Hi.
Qed.

Lemma pass_counts_witness :
  exists s,
    aggregate scenario = inr s
    /\ sellers_with_low_reviews (final s) = 2
    /\ irrelevant_listings (final s) = 0
    /\ count (final s) = 3.
Proof.
  eexists. split; [vm_compute; reflexivity|].
  destruct (pass_counts scenario _ eq_refl) as (Hl & Hi & Hc & _).
  split; [exact Hl | split; [exact Hi | exact Hc]].
Defined.

(** ** The tiers as the first three of a ranking *)

Lemma ranking_snoc (l : list (num * num)) (x : num * num) :
  ranking (l ++ [x]) = rank_insert x (ranking l).
Proof. unfold ranking. now rewrite fold_left_app. Qed.

Lemma rank_insert_Forall (P : num * num -> Prop) (x : num * num)
    (l : list (num * num)) :
  P x -> Forall P l -> Forall P (rank_insert x l).
Proof.
  intros Hx. induction l as [|y l IH]; intros Hl; cbn.
  - now constructor.
  - destruct (num_gt (fst x) (fst y)).
    + now constructor.
    + inversion Hl; subst. constructor; [assumption | now apply IH].
Qed.

Lemma rank_insert_perm (x : num * num) (l : list (num * num)) :
  Permutation (rank_insert x l) (x :: l).
Proof.
  induction l as [|y l IH]; cbn; [reflexivity|].
  destruct (num_gt (fst x) (fst y)); [reflexivity|].
  rewrite IH. apply perm_swap.
Qed.

Lemma rank_insert_sorted (x : num * num) (l : list (num * num)) :
  Sorted price_ge l -> Sorted price_ge (rank_insert x l).
Proof.
  induction l as [|y l IH]; intros Hs; cbn.
  - repeat constructor.
  - destruct (num_gt (fst x) (fst y)) eqn:G.
    + constructor; [exact Hs|]. constructor.
      apply num_gt_true in G. unfold price_ge. lra.
    + apply num_gt_false in G. inversion Hs as [|? ? Hs' Hhd]; subst.
      constructor; [now apply IH|].
      destruct l as [|z l]; cbn.
      * constructor. exact G.
      * destruct (num_gt (fst x) (fst z)).
        -- constructor. exact G.
        -- inversion Hhd; subst. now constructor.
Qed.

Lemma ranking_facts (l : list (num * num)) :
  Sorted price_ge (ranking l) /\ Permutation (ranking l) l.
Proof.
  induction l as [|x l IH] using rev_ind.
  - split; constructor.
  - rewrite ranking_snoc. destruct IH as [Hs Hp]. split.
    + now apply rank_insert_sorted.
    + rewrite rank_insert_perm, Hp. apply Permutation_cons_append.
Qed.

(** [place] on the first three of a ranking is the insertion into the
    ranking, for a price above 0; a price that is not above 0 leaves the
    tiers as they are. *)
Lemma place_top_three (x : num * num) (l : list (num * num)) :
  positive_price x ->
  place (fst x) (snd x) (top_three l) = top_three (rank_insert x l).
Proof.
  intros Hx.
  assert (Hs : num_gt (fst x) (fst sentinel) = true).
  { apply num_gt_true. exact Hx. }
  destruct x as [p u]. cbn [fst snd] in *.
  destruct l as [|a [|b [|c l]]]; cbn [top_three rank_insert place fst].
  - now rewrite Hs.
  - destruct (num_gt p (fst a)); [reflexivity|]. now rewrite Hs.
  - destruct (num_gt p (fst a)); [reflexivity|].
    destruct (num_gt p (fst b)); [reflexivity|]. now rewrite Hs.
  - destruct (num_gt p (fst a)); [reflexivity|].
    destruct (num_gt p (fst b)); [reflexivity|].
    destruct (num_gt p (fst c)); reflexivity.
Qed.

Lemma place_low_price (p u : num) (l : list (num * num)) :
  (val p <= 0)%Q ->
  Forall positive_price l ->
  place p u (top_three l) = top_three l.
Proof.
  intros Hp Hl.
  assert (Hlow : forall y : num * num,
             (0 <= val (fst y))%Q -> num_gt p (fst y) = false).
  { intros y Hy. apply num_gt_false. lra. }
  assert (Hsent : num_gt p (fst sentinel) = false).
  { apply Hlow. change (0 <= 0)%Q. lra. }
  assert (Hin : forall y, In y l -> num_gt p (fst y) = false).
  { intros y Hy. apply Hlow. rewrite Forall_forall in Hl.
    specialize (Hl y Hy). unfold positive_price in Hl. lra. }
  destruct l as [|a [|b [|c l]]]; cbn [top_three place];
    rewrite ?Hsent, ?(Hin a), ?(Hin b), ?(Hin c); cbn; tauto.
Qed.

Lemma loop_top_three (data : list attrs) (a : acc) :
  loop acc0 data = inr a ->
  tiers_of a = top_three (ranking (map pair_of (filter ranked data))).
Proof.
  intros Hloop.
  pose (P := fun (seen : list attrs) (a : acc) =>
               tiers_of a
               = top_three (ranking (map pair_of (filter ranked seen)))).
  assert (Hpos : forall seen,
             Forall positive_price (ranking (map pair_of (filter ranked seen)))).
  { intros seen.
    apply (Permutation_Forall
             (Permutation_sym (proj2 (ranking_facts _)))).
    apply Forall_forall. intros x Hx. apply in_map_iff in Hx.
    destruct Hx as (p & <- & Hp). apply filter_In in Hp.
    destruct Hp as [_ Hr]. unfold ranked in Hr. apply andb_prop in Hr.
    destruct Hr as [_ Hr]. apply num_gt_true in Hr. exact Hr. }
  assert (Hstep : forall seen a0 p a',
             P seen a0 -> step a0 p = inr a' -> P (seen ++ [p])%list a').
  { intros seen a0 p a' HP Hstep.
    apply step_numeric in Hstep.
    destruct Hstep as (_ & xs & xr & xp & xv & Hxs & Hxr & Hxp & Hxv & ->).
    unfold P in *. rewrite tiers_of_advance, HP, filter_app, map_app.
    cbn [filter].
    change (ranked p) with (qualifying p && num_gt (price_of p) (Int 0)).
    change (num_ge (units_of p) (Int 100)) with (qualifying p).
    destruct (qualifying p) eqn:Hq; cbn [andb].
    - destruct (num_gt (price_of p) (Int 0)) eqn:Hr; cbn [map].
      + rewrite ranking_snoc.
        apply (place_top_three (pair_of p)).
        apply num_gt_true in Hr. exact Hr.
      + rewrite app_nil_r. apply place_low_price; [|apply Hpos].
        apply num_gt_false in Hr. exact Hr.
    - cbn [map]. now rewrite app_nil_r. }
  assert (Hstart : P [] acc0) by reflexivity.
  exact (loop_invariant P Hstep data [] acc0 a Hstart Hloop).
Qed.

(** X6: when the pass ends, the three tiers are the first three of the
    ranking by price of the listings with at least 100 units sold and a
    price above 0, the sentinel (0, 0) standing in where fewer than three
    such listings exist.  The ranking holds exactly those listings, prices
    from highest to lowest, a listing behind those seen before it at the
    same price. *)
Theorem tiers_are_top_three (data : list attrs) (s : summary) :
  aggregate data = inr s ->
  tiers_of (final s) = top_three (ranking (map pair_of (filter ranked data)))
  /\ Sorted price_ge (ranking (map pair_of (filter ranked data)))
  /\ Permutation (ranking (map pair_of (filter ranked data)))
                 (map pair_of (filter ranked data)).
Proof.
  intros Hs. apply aggregate_inr in Hs. destruct Hs as [Hloop _].
  set (a := final s) in *.
  split; [now apply loop_top_three | apply ranking_facts].
Qed.

Lemma tiers_are_top_three_witness :
  exists s,
    aggregate (scenario ++ scenario) = inr s
    /\ tiers_of (final s)
       = ((Int 30, Int 200), (Int 30, Int 200), (Int 20, Int 150)).
Proof.
  eexists. split; [reflexivity|].
  exact (proj1 (tiers_are_top_three (scenario ++ scenario) _ eq_refl)).
Defined.

Lemma place_highest (p u : num) (t : tiers) :
  (val (fst (fst (fst t))) <= val (fst (fst (fst (place p u t)))))%Q
  /\ (val p <= val (fst (fst (fst (place p u t)))))%Q.
Proof.
  destruct t as [[hi se] th]. unfold place. cbn [fst].
  destruct (num_gt p (fst hi)) eqn:G1.
  - apply num_gt_true in G1. cbn [fst]. lra.
  - apply num_gt_false in G1.
    destruct (num_gt p (fst se)); [cbn [fst]; lra|].
    destruct (num_gt p (fst th)); cbn [fst]; lra.
Qed.

Lemma loop_highest (data : list attrs) (a : acc) :
  loop acc0 data = inr a ->
  forall p, In p data -> qualifying p = true ->
            (val (price_of p) <= val (highest_price a))%Q.
Proof.
  intros Hloop.
  pose (P := fun (seen : list attrs) (a : acc) =>
               forall p, In p seen -> qualifying p = true ->
                         (val (price_of p) <= val (highest_price a))%Q).
  assert (Hstep : forall seen a0 q a',
             P seen a0 -> step a0 q = inr a' -> P (seen ++ [q])%list a').
  { intros seen a0 q a' HP Hstep.
    apply step_numeric in Hstep.
    destruct Hstep as (_ & xs & xr & xp & xv & Hxs & Hxr & Hxp & Hxv & ->).
    assert (Hhi : forall b, highest_price b = fst (fst (fst (tiers_of b))))
      by reflexivity.
    intros p Hin Hq. rewrite Hhi, tiers_of_advance.
    change (num_ge (units_of q) (Int 100)) with (qualifying q).
    apply in_app_or in Hin. destruct Hin as [Hin | [<- | []]].
    - specialize (HP p Hin Hq). rewrite Hhi in HP.
      destruct (qualifying q); [|exact HP].
      pose proof (place_highest (price_of q) (units_of q) (tiers_of a0))
        as [Hup _].
      lra.
    - rewrite Hq.
      apply (place_highest (price_of q) (units_of q) (tiers_of a0)). }
  assert (Hstart : P [] acc0) by (intros p []).
  exact (loop_invariant P Hstep data [] acc0 a Hstart Hloop).
Qed.

(** X7: when the pass ends, no listing with at least 100 units sold has a
    price above the highest tier, and the highest tier is the sentinel or
    the price and units of such a listing: its price is the greatest price
    among them, or 0 when none has a price above 0. *)
Theorem highest_tier_is_maximum (data : list attrs) (s : summary) :
  aggregate data = inr s ->
  (forall p, In p data -> qualifying p = true ->
             (val (price_of p) <= val (highest_price (final s)))%Q)
  /\ ((highest_price (final s), highest_price_units (final s)) = sentinel
      \/ exists p, In p data /\ qualifying p = true
                   /\ (highest_price (final s), highest_price_units (final s))
                      = pair_of p).
Proof.
  intros Hs. apply aggregate_inr in Hs. destruct Hs as [Hloop _].
  set (a := final s) in *. split.
  - now apply loop_highest.
  - pose proof (loop_tier_inv data a Hloop) as Hinv.
    unfold tier_inv, tiers_of in Hinv.
    destruct Hinv as (_ & _ & _ & [Hsent | (_ & p & Hin & Hq & Hp)] & _).
    + left. exact Hsent.
    + right. exists p. repeat split; assumption.
Qed.

Lemma highest_tier_is_maximum_witness :
  exists s,
    aggregate scenario = inr s
    /\ forall p, In p scenario -> qualifying p = true ->
                 (val (price_of p) <= val (highest_price (final s)))%Q.
Proof.
  eexists. split; [reflexivity|].
  exact (proj1 (highest_tier_is_maximum scenario _ eq_refl)).
Defined.

(** ** What the updaters write *)

Lemma safe_getattr_type (obj : attrs) (attr : string) (default : pyval) :
  is_int_float_str default = true ->
  is_int_float_str (safe_getattr obj attr default) = true.
Proof.
  intros Hd. unfold safe_getattr.
  destruct (is_int_float_str (getattr obj attr default)) eqn:E; assumption.
Qed.

Lemma average_plain (t : total) (n : Z) (c : cell) :
  average t n = inr c -> plain_cell c = true.
Proof.
  unfold average. destruct (n =? 0)%Z.
  - intros H. injection H as <-. reflexivity.
  - destruct (true_div t n); [discriminate|].
    intros H. injection H as <-. reflexivity.
Qed.

(** X8: [safe_getattr] with a number or a string as default always returns
    a number or a string, whatever the object holds; so every cell the
    updaters write is a number, a string or [None], the insight row has 23
    cells and the product row, the row of a summary of the pass, 12. *)
Theorem written_cells_plain :
  (forall obj attr default,
      is_int_float_str default = true ->
      is_int_float_str (safe_getattr obj attr default) = true)
  /\ (forall keyword_data,
        Forall (fun c => plain_cell c = true) (insight_row keyword_data)
        /\ List.length (insight_row keyword_data) = 23%nat)
  /\ (forall data s,
        aggregate data = inr s ->
        Forall (fun c => plain_cell c = true) (summary_row s)
        /\ List.length (summary_row s) = 12%nat).
Proof.
  split; [exact safe_getattr_type|]. split.
  - intros kd. split; [|reflexivity].
    assert (Hplain : forall attr,
               plain_cell (Obj (safe_getattr kd attr zero)) = true).
    { intros attr.
      pose proof (safe_getattr_type kd attr zero eq_refl) as H.
      cbn [plain_cell].
      destruct (safe_getattr kd attr zero); try discriminate H; reflexivity. }
    unfold insight_row. cbn [map]. repeat constructor; apply Hplain.
  - intros data s Hs. split; [|reflexivity].
    apply aggregate_inr in Hs. destruct Hs as (_ & A1 & A2 & A3 & A4).
    apply average_plain in A1, A2, A3, A4.
    unfold summary_row. repeat (constructor; [assumption || reflexivity|]).
    constructor.
Qed.

Lemma written_cells_plain_witness :
  is_int_float_str
    (safe_getattr partial_insight "recommended_promotions" zero) = true
  /\ exists s,
       aggregate scenario = inr s
       /\ Forall (fun c => plain_cell c = true) (summary_row s).
Proof.
  split.
  - exact (proj1 written_cells_plain partial_insight "recommended_promotions"
                 zero eq_refl).
  - eexists. split; [vm_compute; reflexivity|].
    exact (proj1 (proj2 (proj2 written_cells_plain) scenario _ eq_refl)).
Defined.

(** ** What a refresh does to the log and to the outside *)

Lemma fetch_keyword_insights_effect
    (w : world) (k : pyval) (i : Z) (st : state) :
  exists line t,
    fetch_keyword_insights w k i st = (inr tt, logged line (traced t st))
    /\ Forall (row_event i k) t.
Proof.
  rewrite fetch_keyword_insights_state.
  assert (Hq : row_event i k (KeywordsByKeyword k)) by (left; reflexivity).
  destruct (keywords_by_keyword w (trace st) k) as [e|[|kd others]].
  - eexists; eexists; split; [reflexivity|]. repeat (apply Forall_cons; [assumption|]); apply Forall_nil.
  - eexists; eexists; split; [reflexivity|]. repeat (apply Forall_cons; [assumption|]); apply Forall_nil.
  - assert (Hu : row_event i k (Update (insights_range i) [insight_row kd])).
    { right. right. left. exists (insight_row kd). split; reflexivity. }
    cbv zeta. destruct (sheet_update w _ _ _);
      eexists; eexists; (split; [reflexivity|]); repeat (apply Forall_cons; [assumption|]); apply Forall_nil.
Qed.

Lemma fetch_product_data_effect
    (w : world) (k : pyval) (i : Z) (st : state) :
  exists line t,
    fetch_product_data w k i st = (inr tt, logged line (traced t st))
    /\ Forall (row_event i k) t.
Proof.
  rewrite fetch_product_data_state. cbv zeta.
  assert (Hq : row_event i k (ProductDatabase [k]))
    by (right; left; reflexivity).
  destruct (product_database w (trace st) [k]) as [e|[|p rest]].
  - eexists; eexists; split; [reflexivity|]. repeat (apply Forall_cons; [assumption|]); apply Forall_nil.
  - eexists; eexists; split; [reflexivity|]. repeat (apply Forall_cons; [assumption|]); apply Forall_nil.
  - destruct (aggregate (p :: rest)) as [e|s].
    + eexists; eexists; split; [reflexivity|]. repeat (apply Forall_cons; [assumption|]); apply Forall_nil.
    + assert (Hu : row_event i k (Update (products_range i) [summary_row s])).
      { right. right. right. exists (summary_row s). split; reflexivity. }
      destruct (sheet_update w _ _ _);
        eexists; eexists; (split; [reflexivity|]); repeat (apply Forall_cons; [assumption|]); apply Forall_nil.
Qed.

(** A refresh appends two lines for each pair, the same lines to the buffer
    and to the console, and touches the outside for its pairs only. *)
Lemma refresh_effect (w : world) (pairs : list (Z * pyval)) :
  forall st,
  exists lines t,
    refresh w pairs st
    = (inr tt,
       {| log_buffer := log_buffer st ++ lines;
          console := console st ++ lines;
          trace := trace st ++ t |})
    /\ List.length lines = (2 * List.length pairs)%nat
    /\ Forall (fun ev => exists i k, In (i, k) pairs /\ row_event i k ev) t.
Proof.
  induction pairs as [|[i k] rest IH]; intros st.
  - exists [], []. cbn. rewrite !app_nil_r. destruct st. repeat split.
    constructor.
  - cbn [refresh]. unfold bind.
    destruct (fetch_keyword_insights_effect w k i st) as (l1 & t1 & -> & H1).
    destruct (fetch_product_data_effect w k i (logged l1 (traced t1 st)))
      as (l2 & t2 & -> & H2).
    destruct (IH (logged l2 (traced t2 (logged l1 (traced t1 st)))))
      as (lines & t & -> & Hlen & Hev).
    exists (l1 :: l2 :: lines), (t1 ++ t2 ++ t)%list.
    cbn [logged traced log_buffer console trace List.length].
    rewrite <- !app_assoc. cbn [app]. split; [reflexivity|].
    split; [lia|].
    apply Forall_app. split; [|apply Forall_app; split].
    + eapply Forall_impl; [|exact H1]. intros ev Hev1.
      exists i, k. split; [left; reflexivity | exact Hev1].
    + eapply Forall_impl; [|exact H2]. intros ev Hev2.
      exists i, k. split; [left; reflexivity | exact Hev2].
    + eapply Forall_impl; [|exact Hev]. intros ev (i' & k' & Hin & Hrow).
      exists i', k'. split; [right; exact Hin | exact Hrow].
Qed.

(** X9: each call of an updater appends exactly one line, to the log buffer
    and to the console alike, and besides its query makes at most one write,
    on its own row: an anchor at column B or the columns F to Q, never the
    keyword column. *)
Theorem updater_one_line (w : world) (keyword : pyval) (row_index : Z) (st : state) :
  (exists line t,
     fetch_keyword_insights w keyword row_index st
     = (inr tt,
        {| log_buffer := log_buffer st ++ [line];
           console := console st ++ [line];
           trace := trace st ++ t |})
     /\ (t = [KeywordsByKeyword keyword]
         \/ exists cells,
              t = [ KeywordsByKeyword keyword;
                    Update ("B" ++ str_int row_index) [cells] ]))
  /\ (exists line t,
        fetch_product_data w keyword row_index st
        = (inr tt,
           {| log_buffer := log_buffer st ++ [line];
              console := console st ++ [line];
              trace := trace st ++ t |})
        /\ (t = [ProductDatabase [keyword]]
            \/ exists cells,
                 t = [ ProductDatabase [keyword];
                       Update ("F" ++ str_int row_index ++ ":Q"
                               ++ str_int row_index) [cells] ])).
Proof.
  split.
  - rewrite fetch_keyword_insights_state.
    destruct (keywords_by_keyword w (trace st) keyword) as [e|[|kd others]].
    + eexists; eexists; split; [reflexivity | left; reflexivity].
    + eexists; eexists; split; [reflexivity | left; reflexivity].
    + cbv zeta. destruct (sheet_update w _ _ _);
        eexists; eexists;
        (split; [reflexivity | right; eexists; reflexivity]).
  - rewrite fetch_product_data_state. cbv zeta.
    destruct (product_database w (trace st) [keyword]) as [e|[|p rest]].
    + eexists; eexists; split; [reflexivity | left; reflexivity].
    + eexists; eexists; split; [reflexivity | left; reflexivity].
    + destruct (aggregate (p :: rest)) as [e|s].
      * eexists; eexists; split; [reflexivity | left; reflexivity].
      * destruct (sheet_update w _ _ _);
          eexists; eexists;
          (split; [reflexivity | right; eexists; reflexivity]).
Qed.

(** ** A run, path by path *)

Lemma run_automation_connect_raises
    (w : world) (mode : string) (st : state) (e : exn) :
  connect_to_google_sheets w (trace st) = Some e ->
  run_automation w mode st
  = (inl server_error,
     logged (automation_error_line w e) (traced [Connect] st)).
Proof.
  intros H. unfold run_automation, try_except, bind, call. now rewrite H.
Qed.

Lemma run_automation_read_raises
    (w : world) (mode : string) (st : state) (e : exn) :
  connect_to_google_sheets w (trace st) = None ->
  get_all_values w (trace st ++ [Connect]) = inl e ->
  run_automation w mode st
  = (inl server_error,
     logged (automation_error_line w e) (traced [Connect; GetAllValues] st)).
Proof.
  intros Hc Hr. unfold run_automation, try_except, bind, call.
  rewrite Hc. cbn [outcome trace]. rewrite Hr.
  unfold log_message, logged, traced, raise. cbn. now rewrite <- app_assoc.
Qed.

Lemma run_automation_other_mode
    (w : world) (mode : string) (st : state) (rows : list row) :
  mode <> "all" -> mode <> "new" ->
  connect_to_google_sheets w (trace st) = None ->
  get_all_values w (trace st ++ [Connect]) = inr rows ->
  run_automation w mode st
  = (inl server_error,
     logged (automation_error_line w (HTTPException 400 "Invalid update mode"))
            (traced [Connect; GetAllValues] st)).
Proof.
  intros Hall Hnew Hc Hr.
  apply String.eqb_neq in Hall. apply String.eqb_neq in Hnew.
  unfold run_automation, try_except, bind, call.
  rewrite Hc. cbn [outcome trace]. rewrite Hr, Hall, Hnew.
  unfold log_message, logged, traced, raise. cbn. now rewrite <- app_assoc.
Qed.

(** A run under a valid mode, with its lines and events spelled out. *)
Lemma run_automation_valid_effect
    (w : world) (mode : string) (further : row -> bool) (label : string)
    (st : state) (rows : list row) :
  mode_loop mode further label ->
  connect_to_google_sheets w (trace st) = None ->
  get_all_values w (trace st ++ [Connect]) = inr rows ->
  exists lines t,
    run_automation w mode st
    = ((if has_empty_row (tl rows) then inl server_error else inr success),
       {| log_buffer :=
            log_buffer st
            ++ label :: lines
            ++ (if has_empty_row (tl rows)
                then [automation_error_line w IndexError] else []);
          console :=
            console st
            ++ label :: lines
            ++ (if has_empty_row (tl rows)
                then [automation_error_line w IndexError] else []);
          trace := trace st ++ Connect :: GetAllValues :: t |})
    /\ List.length lines
       = (2 * List.length (selected further 2 (tl rows)))%nat
    /\ Forall (fun ev => exists i k,
                   In (i, k) (selected further 2 (tl rows))
                   /\ row_event i k ev) t.
Proof.
  intros Hm Hc Hr.
  rewrite (run_automation_valid w mode further label st rows Hm Hc Hr).
  destruct (refresh_effect w (selected further 2 (tl rows))
              (logged label (traced [Connect; GetAllValues] st)))
    as (lines & t & Href & Hlen & Hev).
  exists lines, t. rewrite Href. cbn [snd logged traced log_buffer console trace].
  split; [|split; assumption].
  destruct (has_empty_row (tl rows));
    unfold logged; cbn [log_buffer console trace];
    rewrite <- !app_assoc; cbn [app]; rewrite ?app_nil_r; reflexivity.
Qed.

(** X10: a failure before the loop answers with the server error and leaves
    one log line with the text of the exception.  When the connection
    raises, the sheet is not read; when the read raises, and when the mode
    is neither "all" nor "new", the sheet has been read and nothing else is
    done.  For the unknown mode the exception in the log line is the
    [HTTPException] of status 400 that the handler has caught. *)
Theorem run_fails_before_loop (w : world) (mode : string) (st : state) :
  (forall e,
      connect_to_google_sheets w (trace st) = Some e ->
      run_automation w mode st
      = (inl (HTTPException 500 "Internal Server Error"),
         logged ("Error in automation: " ++ str_exn w e)
                (traced [Connect] st)))
  /\ (forall e,
        connect_to_google_sheets w (trace st) = None ->
        get_all_values w (trace st ++ [Connect]) = inl e ->
        run_automation w mode st
        = (inl (HTTPException 500 "Internal Server Error"),
           logged ("Error in automation: " ++ str_exn w e)
                  (traced [Connect; GetAllValues] st)))
  /\ (forall rows,
        mode <> "all" -> mode <> "new" ->
        connect_to_google_sheets w (trace st) = None ->
        get_all_values w (trace st ++ [Connect]) = inr rows ->
        run_automation w mode st
        = (inl (HTTPException 500 "Internal Server Error"),
           logged ("Error in automation: "
                   ++ str_exn w (HTTPException 400 "Invalid update mode"))
                  (traced [Connect; GetAllValues] st))).
Proof.
  split; [|split].
  - intros e. apply run_automation_connect_raises.
  - intros e. apply run_automation_read_raises.
  - intros rows. apply run_automation_other_mode.
Qed.

Lemma run_fails_before_loop_witness :
  run_automation offline_world "all" state0
  = (inl (HTTPException 500 "Internal Server Error"),
     logged "Error in automation: no route to host" (traced [Connect] state0))
  /\ run_automation (calm_world sample_rows [] []) "ALL" state0
     = (inl (HTTPException 500 "Internal Server Error"),
        logged "Error in automation: 400: Invalid update mode"
               (traced [Connect; GetAllValues] state0)).
Proof.
  split.
  - exact (proj1 (run_fails_before_loop offline_world "all" state0)
                 (ExternalError "no route to host") eq_refl).
  - apply (proj2 (proj2 (run_fails_before_loop
                           (calm_world sample_rows [] []) "ALL" state0))
                 sample_rows); try reflexivity; discriminate.
Defined.

(** X11: whatever the mode, the row contents and the services, a run ends in
    one of two ways: the success answer, or the [HTTPException] of status
    500 with the fixed detail "Internal Server Error"; no other exception
    and no other status leaves [run_automation].  It appends at least one
    line, the same lines to the log buffer and to the console, keeps the
    lines that were there, and on failure the last line is the
    "Error in automation" line. *)
Theorem run_outcomes (w : world) (mode : string) (st : state) :
  exists lines,
    lines <> []
    /\ log_buffer (snd (run_automation w mode st)) = (log_buffer st ++ lines)%list
    /\ console (snd (run_automation w mode st)) = (console st ++ lines)%list
    /\ (fst (run_automation w mode st)
        = inr {| status := "Automation completed successfully" |}
        \/ (fst (run_automation w mode st)
            = inl (HTTPException 500 "Internal Server Error")
            /\ exists e earlier,
                 lines = (earlier
                          ++ [("Error in automation: " ++ str_exn w e)%string])%list)).
Proof.
  destruct (connect_to_google_sheets w (trace st)) as [e|] eqn:Hc.
  { rewrite (run_automation_connect_raises w mode st e Hc).
    exists [automation_error_line w e]. cbn.
    split; [discriminate|]. split; [reflexivity|]. split; [reflexivity|].
    right. split; [reflexivity|]. exists e, []. reflexivity. }
  destruct (get_all_values w (trace st ++ [Connect])) as [e|rows] eqn:Hr.
  { rewrite (run_automation_read_raises w mode st e Hc Hr).
    exists [automation_error_line w e]. cbn.
    split; [discriminate|]. split; [reflexivity|]. split; [reflexivity|].
    right. split; [reflexivity|]. exists e, []. reflexivity. }
  assert (Hvalid : forall further label,
             mode_loop mode further label ->
             exists lines,
               lines <> []
               /\ log_buffer (snd (run_automation w mode st))
                  = (log_buffer st ++ lines)%list
               /\ console (snd (run_automation w mode st))
                  = (console st ++ lines)%list
               /\ (fst (run_automation w mode st) = inr success
                   \/ (fst (run_automation w mode st) = inl server_error
                       /\ exists e earlier,
                            lines = (earlier ++ [automation_error_line w e])%list))).
  { intros further label Hm.
    destruct (run_automation_valid_effect w mode further label st rows Hm Hc Hr)
      as (lines & t & -> & _ & _).
    cbn [fst snd log_buffer console].
    eexists. split; [|split; [reflexivity|split; [reflexivity|]]].
    - discriminate.
    - destruct (has_empty_row (tl rows)); [right | left; reflexivity].
      split; [reflexivity|]. exists IndexError, (label :: lines). reflexivity. }
  destruct (String.eqb mode "all") eqn:Eall.
  { apply String.eqb_eq in Eall. subst mode. exact (Hvalid _ _ loop_all). }
  destruct (String.eqb mode "new") eqn:Enew.
  { apply String.eqb_eq in Enew. subst mode. exact (Hvalid _ _ loop_new). }
  apply String.eqb_neq in Eall. apply String.eqb_neq in Enew.
  rewrite (run_automation_other_mode w mode st rows Eall Enew Hc Hr).
  exists [automation_error_line w (HTTPException 400 "Invalid update mode")].
  cbn. split; [discriminate|]. split; [reflexivity|]. split; [reflexivity|].
  right. split; [reflexivity|]. eexists; exists []. reflexivity.
Qed.

(** X12: with the sheet connected and read, a run under "all" or "new"
    appends the "Processing" line of its mode, then two lines for every
    selected row, then the "Error in automation" line when a data row
    without cells stops it; the console receives the same lines. *)
Theorem run_log_lines
    (w : world) (mode : string) (further : row -> bool) (label : string)
    (st : state) (rows : list row) :
  mode_loop mode further label ->
  connect_to_google_sheets w (trace st) = None ->
  get_all_values w (trace st ++ [Connect]) = inr rows ->
  exists lines,
    List.length lines = (2 * List.length (selected further 2 (tl rows)))%nat
    /\ log_buffer (snd (run_automation w mode st))
       = (log_buffer st
          ++ label :: lines
          ++ (if has_empty_row (tl rows)
              then [("Error in automation: " ++ str_exn w IndexError)%string]
              else []))%list
    /\ console (snd (run_automation w mode st))
       = (console st
          ++ label :: lines
          ++ (if has_empty_row (tl rows)
              then [("Error in automation: " ++ str_exn w IndexError)%string]
              else []))%list.
Proof.
  intros Hm Hc Hr.
  destruct (run_automation_valid_effect w mode further label st rows Hm Hc Hr)
    as (lines & t & -> & Hlen & _).
  exists lines. split; [exact Hlen|]. split; reflexivity.
Qed.

Lemma run_log_lines_witness :
  exists lines,
    List.length lines = 4%nat
    /\ log_buffer (snd (run_automation (stormy_world sample_rows) "all" state0))
       = "Processing all rows..." :: lines.
Proof.
  destruct (run_log_lines (stormy_world sample_rows) "all" (fun _ => true)
              "Processing all rows..." state0 sample_rows
              loop_all eq_refl eq_refl)
    as (lines & Hlen & Hlog & _).
  exists lines. split; [exact Hlen|].
  rewrite Hlog. cbn. now rewrite app_nil_r.
Defined.

(** X13: a run under "all" or "new" touches the outside only for its
    selected rows: after connecting and reading, every event is a query for
    the keyword of a data row with a truthy keyword cell, or a write on that
    row of the sheet (data row [n] is row [2 + n]), anchored at column B or
    on the columns F to Q.  The header row and the keyword column are never
    written. *)
Theorem run_events_confined
    (w : world) (mode : string) (further : row -> bool) (label : string)
    (st : state) (rows : list row) :
  mode_loop mode further label ->
  connect_to_google_sheets w (trace st) = None ->
  get_all_values w (trace st ++ [Connect]) = inr rows ->
  exists t,
    trace (snd (run_automation w mode st))
    = (trace st ++ Connect :: GetAllValues :: t)%list
    /\ Forall (fun ev =>
                 exists (n : nat) (k : pyval) (cells : list pyval),
                   nth_error (tl rows) n = Some (k :: cells)
                   /\ truthy k = true
                   /\ (ev = KeywordsByKeyword k
                       \/ ev = ProductDatabase [k]
                       \/ (exists written,
                             ev = Update ("B" ++ str_int (2 + Z.of_nat n))
                                         [written])
                       \/ (exists written,
                             ev = Update ("F" ++ str_int (2 + Z.of_nat n) ++ ":Q"
                                          ++ str_int (2 + Z.of_nat n))
                                         [written]))) t.
Proof.
  intros Hm Hc Hr.
  destruct (run_automation_valid_effect w mode further label st rows Hm Hc Hr)
    as (lines & t & -> & _ & Hev).
  exists t. split; [reflexivity|].
  eapply Forall_impl; [|exact Hev].
  intros ev (i & k & Hin & Hrow). apply selected_spec in Hin.
  destruct Hin as (n & cells & -> & Hn & _ & Hk & _).
  exists n, k, cells. split; [exact Hn|]. split; [exact Hk|].
  destruct Hrow as [H | [H | [(c & H & _) | (c & H & _)]]].
  - left. exact H.
  - right. left. exact H.
  - right. right. left. exists c. exact H.
  - right. right. right. exists c. exact H.
Qed.

Lemma run_events_confined_witness :
  exists t,
    trace (snd (run_automation
                  (calm_world sample_rows [partial_insight] scenario)
                  "new" state0))
    = Connect :: GetAllValues :: t.
Proof.
  destruct (run_events_confined
              (calm_world sample_rows [partial_insight] scenario)
              "new" is_row_empty "Processing new rows..." state0 sample_rows
              loop_new eq_refl eq_refl)
    as (t & Ht & _).
  exists t. exact Ht.
Defined.

(** X14: on a sheet with no row or with a header row only, a run under
    "all" or "new" succeeds with no query and no write: it connects, reads,
    and logs the "Processing" line of its mode. *)
Theorem run_on_empty_sheet
    (w : world) (mode : string) (further : row -> bool) (label : string)
    (st : state) (rows : list row) :
  mode_loop mode further label ->
  connect_to_google_sheets w (trace st) = None ->
  get_all_values w (trace st ++ [Connect]) = inr rows ->
  tl rows = [] ->
  run_automation w mode st
  = (inr {| status := "Automation completed successfully" |},
     {| log_buffer := log_buffer st ++ [label];
        console := console st ++ [label];
        trace := trace st ++ [Connect; GetAllValues] |}).
Proof.
  intros Hm Hc Hr Hempty.
  rewrite (run_automation_valid w mode further label st rows Hm Hc Hr).
  rewrite Hempty. reflexivity.
Qed.

Lemma run_on_empty_sheet_witness :
  run_automation (calm_world [[Str "Keyword"; Str "Exact"]] [] []) "new" state0
  = (inr {| status := "Automation completed successfully" |},
     {| log_buffer := ["Processing new rows..."];
        console := ["Processing new rows..."];
        trace := [Connect; GetAllValues] |}).
Proof.
  exact (run_on_empty_sheet
           (calm_world [[Str "Keyword"; Str "Exact"]] [] []) "new"
           is_row_empty "Processing new rows..." state0
           [[Str "Keyword"; Str "Exact"]] loop_new eq_refl eq_refl eq_refl).
Defined.

(** ** Rows around a row without cells *)

Lemma selected_stops (further : row -> bool) (before after : list row) :
  forall idx,
    selected further idx (before ++ [] :: after) = selected further idx before.
Proof.
  induction before as [|r before IH]; intros idx; [reflexivity|].
  destruct r as [|k cells]; [reflexivity|].
  cbn [app selected]. now rewrite IH.
Qed.

Lemma has_empty_row_app (before after : list row) :
  has_empty_row (before ++ [] :: after) = true.
Proof.
  unfold has_empty_row. rewrite existsb_app. cbn. apply orb_true_r.
Qed.

(** X15: a data row without cells cuts the run in two: the selected rows
    before it are refreshed, each with its two queries in order, and no row
    after it is, whatever it holds; the run then answers with the server
    error. *)
Theorem run_stops_at_empty_row
    (w : world) (mode : string) (further : row -> bool) (label : string)
    (st : state) (header : row) (before after : list row) :
  mode_loop mode further label ->
  connect_to_google_sheets w (trace st) = None ->
  get_all_values w (trace st ++ [Connect])
  = inr (header :: before ++ [] :: after) ->
  fst (run_automation w mode st)
  = inl (HTTPException 500 "Internal Server Error")
  /\ queries (snd (run_automation w mode st))
     = (queries st ++ queries_for (selected further 2 before))%list.
Proof.
  intros Hm Hc Hr.
  rewrite (run_automation_valid w mode further label st _ Hm Hc Hr).
  cbn [tl]. rewrite has_empty_row_app, selected_stops.
  split; [reflexivity|]. cbn [snd].
  unfold queries at 1. cbn [logged trace]. fold (queries
    (snd (refresh w (selected further 2 before)
            (logged label (traced [Connect; GetAllValues] st))))).
  rewrite refresh_queries. f_equal.
  unfold queries, logged, traced. cbn [trace].
  rewrite filter_app. cbn. now rewrite app_nil_r.
Qed.

Lemma run_stops_at_empty_row_witness :
  fst (run_automation
         (calm_world (sample_rows ++ [] :: sample_rows) [] []) "all" state0)
  = inl (HTTPException 500 "Internal Server Error")
  /\ queries (snd (run_automation
                     (calm_world (sample_rows ++ [] :: sample_rows) [] [])
                     "all" state0))
     = [ KeywordsByKeyword (Str "yoga mat"); ProductDatabase [Str "yoga mat"];
         KeywordsByKeyword (Str "kettle"); ProductDatabase [Str "kettle"] ].
Proof.
  exact (run_stops_at_empty_row
           (calm_world (sample_rows ++ [] :: sample_rows) [] []) "all"
           (fun _ => true) "Processing all rows..." state0
           [Str "Keyword"; Str "Exact"; Str "Broad"]
           (tl sample_rows) sample_rows loop_all eq_refl eq_refl).
Defined.

(** ** The rows selected under "all", and their order *)

(** X16: the loop of "all" calls the two updaters on the pairs of
    [selected_all], in order, and on nothing else, and a run under "all"
    makes the queries of these pairs.  A data row that the run reaches is
    among them exactly when its keyword cell is truthy, whatever its other
    cells hold; so a row with a keyword and some truthy metric cell is
    refreshed under "all" and skipped under "new". *)
Theorem selected_all_iff
    (data_rows : list row) (n : nat) (keyword : pyval) (cells : list pyval) :
  nth_error data_rows n = Some (keyword :: cells) ->
  (forall m, (m < n)%nat -> nth_error data_rows m <> Some []) ->
  (forall w st,
      for_rows w (fun _ => true) 2 data_rows st
      = (refresh w (selected_all data_rows) ;;
         if has_empty_row data_rows then raise IndexError else ret tt) st)
  /\ (forall w st header,
        connect_to_google_sheets w (trace st) = None ->
        get_all_values w (trace st ++ [Connect]) = inr (header :: data_rows) ->
        queries (snd (run_automation w "all" st))
        = (queries st ++ queries_for (selected_all data_rows))%list
        /\ queries (snd (run_automation w "new" st))
           = (queries st ++ queries_for (selected_new data_rows))%list)
  /\ (In (2 + Z.of_nat n, keyword) (selected_all data_rows)
      <-> truthy keyword = true)
  /\ (truthy keyword = true ->
      (exists c, In c cells /\ truthy c = true) ->
      In (2 + Z.of_nat n, keyword) (selected_all data_rows)
      /\ ~ In (2 + Z.of_nat n, keyword) (selected_new data_rows)).
Proof.
  intros Hrow Hpre.
  assert (Hall : truthy keyword = true ->
                 In (2 + Z.of_nat n, keyword) (selected_all data_rows)).
  { intros Hk. apply selected_spec. exists n, cells.
    repeat split; assumption. }
  split; [|split; [|split; [split; [|exact Hall]|]]].
  - intros w st. apply for_rows_selected.
  - intros w st header Hc Hr. split.
    + exact (run_automation_queries w "all" (fun _ => true)
               "Processing all rows..." st (header :: data_rows)
               loop_all Hc Hr).
    + exact (run_automation_queries w "new" is_row_empty
               "Processing new rows..." st (header :: data_rows)
               loop_new Hc Hr).
  - intros Hin. apply selected_spec in Hin.
    destruct Hin as (n' & cells' & _ & _ & _ & Hk & _). exact Hk.
  - intros Hk (c & Hc & Htrue). split; [now apply Hall|].
    intros Hin. apply selected_spec in Hin.
    destruct Hin as (n' & cells' & Hi & Hn & _ & _ & Hempty).
    assert (n' = n) by lia. subst n'.
    rewrite Hrow in Hn. injection Hn as <-.
    unfold is_row_empty in Hempty. cbn [tl] in Hempty.
    rewrite forallb_forall in Hempty. specialize (Hempty c Hc).
    rewrite Htrue in Hempty. discriminate Hempty.
Qed.

Lemma selected_all_iff_witness :
  In (4, Str "kettle") (selected_all (tl sample_rows))
  /\ ~ In (4, Str "kettle") (selected_new (tl sample_rows))
  /\ queries (snd (run_automation (calm_world sample_rows [] []) "all" state0))
     = [ KeywordsByKeyword (Str "yoga mat"); ProductDatabase [Str "yoga mat"];
         KeywordsByKeyword (Str "kettle"); ProductDatabase [Str "kettle"] ]
  /\ queries (snd (run_automation (calm_world sample_rows [] []) "new" state0))
     = [ KeywordsByKeyword (Str "yoga mat"); ProductDatabase [Str "yoga mat"] ].
Proof.
  assert (Hpre : forall m, (m < 2)%nat ->
                           nth_error (tl sample_rows) m <> Some []).
  { intros [|[|m]] Hm; try discriminate. lia. }
  destruct (selected_all_iff (tl sample_rows) 2 (Str "kettle")
              [Str "1200"; Str ""] eq_refl Hpre)
    as (_ & Hrun & _ & Hdiff).
  destruct (Hdiff eq_refl) as [Hin Hout].
  { exists (Str "1200"). split; [left|]; reflexivity. }
  split; [exact Hin|]. split; [exact Hout|].
  exact (Hrun (calm_world sample_rows [] []) state0
           [Str "Keyword"; Str "Exact"; Str "Broad"] eq_refl eq_refl).
Defined.

Lemma selected_bounds (further : row -> bool) (data_rows : list row)
    (idx i : Z) (k : pyval) :
  In (i, k) (selected further idx data_rows) ->
  idx <= i < idx + Z.of_nat (List.length data_rows).
Proof.
  intros Hin. apply selected_spec in Hin.
  destruct Hin as (n & cells & -> & Hn & _).
  assert (n < List.length data_rows)%nat.
  { apply nth_error_Some. congruence. }
  lia.
Qed.

Lemma selected_sorted (further : row -> bool) (data_rows : list row) :
  forall idx,
    StronglySorted Z.lt (map fst (selected further idx data_rows)).
Proof.
  induction data_rows as [|r rest IH]; intros idx; [constructor|].
  destruct r as [|k cells]; [constructor|].
  cbn [selected].
  destruct (truthy k && further (k :: cells)); cbn [app map fst];
    [|apply IH].
  constructor; [apply IH|].
  apply Forall_forall. intros i Hi. apply in_map_iff in Hi.
  destruct Hi as ([i' k'] & <- & Hin).
  apply selected_bounds in Hin. cbn [fst]. lia.
Qed.

(** X17: the rows of a run are taken in the order of the sheet and each at
    most once: the row indexes of the selected pairs increase strictly, and
    each lies between 2 and the last row of the sheet, so row 1, the header,
    is never selected. *)
Theorem selected_in_sheet_order (further : row -> bool) (data_rows : list row) :
  StronglySorted Z.lt (map fst (selected further 2 data_rows))
  /\ NoDup (map fst (selected further 2 data_rows))
  /\ (forall i k,
        In (i, k) (selected further 2 data_rows) ->
        2 <= i <= 1 + Z.of_nat (List.length data_rows)).
Proof.
  pose proof (selected_sorted further data_rows 2) as Hs.
  split; [exact Hs|]. split.
  - induction Hs as [|a l Hs IH Hlt]; constructor; [|exact IH].
    intros Hin. rewrite Forall_forall in Hlt. specialize (Hlt a Hin). lia.
  - intros i k Hin. apply selected_bounds in Hin. lia.
Qed.

Lemma selected_in_sheet_order_witness :
  StronglySorted Z.lt (map fst (selected_all (tl sample_rows)))
  /\ 2 <= 4 <= 1 + Z.of_nat (List.length (tl sample_rows)).
Proof.
  destruct (selected_in_sheet_order (fun _ => true) (tl sample_rows))
    as (Hsorted & _ & Hbounds).
  split; [exact Hsorted|].
  apply (Hbounds 4 (Str "kettle")). simpl. tauto.
Defined.

Lemma run_outcomes_witness :
  exists lines,
    lines <> []
    /\ log_buffer (snd (run_automation (stormy_world sample_rows) "bogus" state0))
       = lines
    /\ fst (run_automation (stormy_world sample_rows) "bogus" state0)
       <> inr {| status := "Automation completed successfully" |}.
Proof.
  destruct (run_outcomes (stormy_world sample_rows) "bogus" state0)
    as (lines & Hne & Hlog & _ & _).
  exists lines. split; [exact Hne|]. split; [exact Hlog | discriminate].
Defined.

Lemma updater_one_line_witness :
  exists line t,
    fetch_product_data (stormy_world sample_rows) (Str "kettle") 4 state0
    = (inr tt, {| log_buffer := [line]; console := [line]; trace := t |}).
Proof.
  destruct (proj2 (updater_one_line (stormy_world sample_rows)
                     (Str "kettle") 4 state0))
    as (line & t & Hrun & _).
  exists line, t. exact Hrun.
Defined.
